(** * Roast package registry: a model of [src/index.ts]

    The registry worker keeps package metadata in a key-value namespace
    ([PACKAGES]), users and tokens in two more ([USERS], [TOKENS]) and the
    tarballs in an object bucket ([TARBALLS]).  This development embeds the
    request handlers of [src/index.ts] and the version comparison they
    sort with, and states the registry's properties about them.

    Conventions of the embedding.
    - A JavaScript string is a [string]: a sequence of code units below 256.
      On that range [toLowerCase] and the white space skipped by [parseInt]
      are exactly the ones defined below.
    - A JavaScript number is a [Z].  The handlers only produce integers
      (parsed version components, byte lengths, counters), which a double
      holds exactly up to 2^53.
    - A handler is a program over the operations of the worker's
      environment; every [await] on a store is one operation, so the same
      definition is run sequentially or interleaved with another request.
    - A value written with [JSON.stringify] and read back with [JSON.parse]
      is the record itself: the stored objects hold strings, integers,
      booleans and arrays only, and an [undefined] field is an absent one. *)

From Stdlib Require Import ZArith Ascii String List Lia.
From stdpp Require Import gmap strings list fin_maps sorting.

Local Open Scope Z_scope.

(** ** Strings *)

Module Str.

(** Code unit of a character. *)
Definition code (c : ascii) : N := N_of_ascii c.

Definition between (lo hi : N) (c : ascii) : bool :=
  ((lo <=? code c) && (code c <=? hi))%N.

(** [\d] *)
Definition is_digit (c : ascii) : bool := between 48 57 c.

(** [[a-z]] *)
Definition is_lower (c : ascii) : bool := between 97 122 c.

(** [[A-Z]] *)
Definition is_upper (c : ascii) : bool := between 65 90 c.

(** White space skipped by [parseInt]: TAB, LF, VT, FF, CR, SP, NBSP. *)
Definition is_white (c : ascii) : bool :=
  between 9 13 c || (code c =? 32)%N || (code c =? 160)%N.

(** [String.prototype.toLowerCase] on one code unit below 256. *)
Definition toLowerCase_char (c : ascii) : ascii :=
  if is_upper c || between 192 214 c || between 216 222 c
  then ascii_of_N (code c + 32)
  else c.

Fixpoint toLowerCase (s : string) : string :=
  match s with
  | EmptyString => EmptyString
  | String c s' => String (toLowerCase_char c) (toLowerCase s')
  end.

(** [s.startsWith(p)] *)
Fixpoint startsWith (p s : string) : bool :=
  match p, s with
  | EmptyString, _ => true
  | String a p', String b s' => Ascii.eqb a b && startsWith p' s'
  | String _ _, EmptyString => false
  end.

(** [s.includes(q)]: [q] occurs in [s] at some position. *)
Fixpoint includes (s q : string) : bool :=
  startsWith q s ||
  match s with
  | EmptyString => false
  | String _ s' => includes s' q
  end.

(** [s.slice(n)] for [n >= 0]. *)
Fixpoint slice (n : nat) (s : string) : string :=
  match n, s with
  | O, _ => s
  | S n', String _ s' => slice n' s'
  | S _, EmptyString => EmptyString
  end.

(** [s.split(sep)] for a separator of one character. *)
Fixpoint split (sep : ascii) (s : string) : list string :=
  match s with
  | EmptyString => [EmptyString]
  | String c s' =>
      if Ascii.eqb c sep then EmptyString :: split sep s'
      else match split sep s' with
           | [] => [String c EmptyString]
           | h :: t => String c h :: t
           end
  end.

(** Longest prefix of characters satisfying [p], and the rest. *)
Fixpoint span (p : ascii -> bool) (s : string) : string * string :=
  match s with
  | EmptyString => (EmptyString, EmptyString)
  | String c s' =>
      if p c then let '(a, b) := span p s' in (String c a, b)
      else (EmptyString, s)
  end.

Fixpoint forallb (p : ascii -> bool) (s : string) : bool :=
  match s with
  | EmptyString => true
  | String c s' => p c && forallb p s'
  end.

Definition is_empty (s : string) : bool :=
  match s with EmptyString => true | _ => false end.

End Str.

(** ** Version comparison *)

(** Value of a decimal digit. *)
Definition digit_value (c : ascii) : Z := Z.of_N (Str.code c) - 48.

(** Value of a run of decimal digits, most significant first. *)
Fixpoint digits_value (acc : Z) (s : string) : Z :=
  match s with
  | EmptyString => acc
  | String c s' => digits_value (10 * acc + digit_value c) s'
  end.

(** Leading white space removed, as the first step of [parseInt]. *)
Fixpoint trim_start (s : string) : string :=
  match s with
  | String c s' => if Str.is_white c then trim_start s' else s
  | EmptyString => EmptyString
  end.

(** [parseInt(s, 10)]; [None] stands for [NaN].  An optional sign, then
    the longest run of digits; what follows the digits is ignored. *)
Definition parseInt (s : string) : option Z :=
  let s1 := trim_start s in
  let '(sign, s2) :=
    match s1 with
    | String "-"%char r => (-1, r)
    | String "+"%char r => (1, r)
    | _ => (1, s1)
    end in
  let '(ds, _) := Str.span Str.is_digit s2 in
  if Str.is_empty ds then None else Some (sign * digits_value 0 ds).

(** [parseInt(p, 10) || 0]: [NaN] and [0] both give [0]. *)
Definition parseInt_or_0 (p : string) : Z :=
  match parseInt p with
  | Some n => n
  | None => 0
  end.

(** [a.split('.').map(p => parseInt(p, 10) || 0)] *)
Definition parts (a : string) : list Z :=
  map parseInt_or_0 (Str.split "."%char a).

(** [parts[i] || 0]: an index past the end reads [undefined]. *)
Definition part (ps : list Z) (i : nat) : Z := nth i ps 0.

(** The loop of [compareVersions], entered at index [i] with [k]
    iterations left. *)
Fixpoint compare_loop (partsA partsB : list Z) (i k : nat) : Z :=
  match k with
  | O => 0
  | S k' =>
      let partA := part partsA i in
      let partB := part partsB i in
      if negb (partA =? partB) then partA - partB
      else compare_loop partsA partsB (S i) k'
  end.

Definition compareVersions (a b : string) : Z :=
  let partsA := parts a in
  let partsB := parts b in
  compare_loop partsA partsB 0 (Nat.max (length partsA) (length partsB)).

(** The version pattern of the publish handler,
    [/^\d+\.\d+\.\d+(-[a-zA-Z0-9.]+)?$/]. *)
Definition is_prerelease_char (c : ascii) : bool :=
  Str.is_lower c || Str.is_upper c || Str.is_digit c || Ascii.eqb c "."%char.

Definition valid_prerelease (s : string) : bool :=
  match s with
  | EmptyString => true
  | String "-"%char t => negb (Str.is_empty t) && Str.forallb is_prerelease_char t
  | String _ _ => false
  end.

Definition valid_version (s : string) : bool :=
  let '(d1, r1) := Str.span Str.is_digit s in
  negb (Str.is_empty d1) &&
  match r1 with
  | String "."%char r1' =>
      let '(d2, r2) := Str.span Str.is_digit r1' in
      negb (Str.is_empty d2) &&
      match r2 with
      | String "."%char r2' =>
          let '(d3, r3) := Str.span Str.is_digit r2' in
          negb (Str.is_empty d3) && valid_prerelease r3
      | _ => false
      end
  | _ => false
  end.

(** The name pattern of the publish handler, [/^[a-z][a-z0-9_-]*$/]. *)
Definition is_name_char (c : ascii) : bool :=
  Str.is_lower c || Str.is_digit c || Ascii.eqb c "_"%char || Ascii.eqb c "-"%char.

Definition valid_name (s : string) : bool :=
  match s with
  | EmptyString => false
  | String c t => Str.is_lower c && Str.forallb is_name_char t
  end.

(** ** Data model *)

(** [interface PackageVersion] *)
Record PackageVersion := {
  version : string;
  published_at : string;
  yanked : bool;
  checksum : string;
  size : Z;
  download_url : option string;
  signature : option string;
  publisher_fingerprint : option string
}.

(** [interface PackageMetadata] *)
Record PackageMetadata := {
  name : string;
  description : string;
  authors : list string;
  license : string;
  repository : option string;
  homepage : option string;
  keywords : list string;
  versions : list PackageVersion;
  created_at : string;
  updated_at : string;
  downloads : Z
}.

(** [interface User] *)
Module User.
Record t := {
  id : string;
  email : string;
  name : string;
  created_at : string;
  packages : list string
}.
End User.

(** An object of the [TARBALLS] bucket: the bytes and the
    [customMetadata] given to [put]. *)
Module R2.
Record t := {
  body : list Byte.byte;
  checksum : string;
  publisher : string;
  published_at : string
}.
End R2.

(** The bindings of [interface Env] that the handlers use.  [USERS] holds
    the user records; the [email:] index entries written at registration
    live under keys that no token maps to. *)
Record Env := {
  PACKAGES : gmap string PackageMetadata;
  USERS : gmap string User.t;
  TOKENS : gmap string string;
  TARBALLS : gmap string R2.t;
  ADMIN_TOKEN : option string
}.

(** The world a handler runs in: the bindings, the digest function behind
    [crypto.subtle.digest('SHA-256', _)] rendered in hex, and the clock:
    [clock n] is what the [n]-th evaluation of
    [new Date().toISOString()] returns. *)
Record World := {
  env : Env;
  sha256_hex : list Byte.byte -> string;
  clock : nat -> string;
  ticks : nat
}.

Definition with_env (w : World) (e : Env) : World :=
  {| env := e; sha256_hex := sha256_hex w; clock := clock w; ticks := ticks w |}.

Definition tick (w : World) : World :=
  {| env := env w; sha256_hex := sha256_hex w; clock := clock w;
     ticks := S (ticks w) |}.

Definition put_package (key : string) (m : PackageMetadata) (e : Env) : Env :=
  {| PACKAGES := <[key := m]> (PACKAGES e); USERS := USERS e;
     TOKENS := TOKENS e; TARBALLS := TARBALLS e; ADMIN_TOKEN := ADMIN_TOKEN e |}.

Definition put_user (key : string) (u : User.t) (e : Env) : Env :=
  {| PACKAGES := PACKAGES e; USERS := <[key := u]> (USERS e);
     TOKENS := TOKENS e; TARBALLS := TARBALLS e; ADMIN_TOKEN := ADMIN_TOKEN e |}.

Definition put_tarball (key : string) (o : R2.t) (e : Env) : Env :=
  {| PACKAGES := PACKAGES e; USERS := USERS e;
     TOKENS := TOKENS e; TARBALLS := <[key := o]> (TARBALLS e);
     ADMIN_TOKEN := ADMIN_TOKEN e |}.

(** Field updates of the two mutable records. *)
Definition set_yanked (y : bool) (v : PackageVersion) : PackageVersion :=
  {| version := version v; published_at := published_at v; yanked := y;
     checksum := checksum v; size := size v; download_url := download_url v;
     signature := signature v;
     publisher_fingerprint := publisher_fingerprint v |}.

Definition set_download_url (u : string) (v : PackageVersion) : PackageVersion :=
  {| version := version v; published_at := published_at v; yanked := yanked v;
     checksum := checksum v; size := size v; download_url := Some u;
     signature := signature v;
     publisher_fingerprint := publisher_fingerprint v |}.

Definition set_versions (vs : list PackageVersion) (m : PackageMetadata)
  : PackageMetadata :=
  {| name := name m; description := description m; authors := authors m;
     license := license m; repository := repository m; homepage := homepage m;
     keywords := keywords m; versions := vs; created_at := created_at m;
     updated_at := updated_at m; downloads := downloads m |}.

Definition set_updated_at (t : string) (m : PackageMetadata) : PackageMetadata :=
  {| name := name m; description := description m; authors := authors m;
     license := license m; repository := repository m; homepage := homepage m;
     keywords := keywords m; versions := versions m; created_at := created_at m;
     updated_at := t; downloads := downloads m |}.

Definition set_downloads (n : Z) (m : PackageMetadata) : PackageMetadata :=
  {| name := name m; description := description m; authors := authors m;
     license := license m; repository := repository m; homepage := homepage m;
     keywords := keywords m; versions := versions m; created_at := created_at m;
     updated_at := updated_at m; downloads := n |}.

Definition set_packages (ps : list string) (u : User.t) : User.t :=
  {| User.id := User.id u; User.email := User.email u; User.name := User.name u;
     User.created_at := User.created_at u; User.packages := ps |}.

(** ** Requests and responses *)

(** A request as the handlers read it: [headers.get] by name, the names
    spelled as the handlers spell them, and the bytes of [arrayBuffer()]. *)
Record Request := {
  headers : gmap string string;
  body : list Byte.byte
}.

(** One entry of the listing returned by [handleListPackages]. *)
Record PackageSummary := {
  summary_name : string;
  summary_description : string;
  latest : string
}.

Inductive Content :=
| ErrorJson (error : string)
| PackageJson (metadata : PackageMetadata)
| SearchJson (packages : list PackageMetadata)
| ListJson (packages : list PackageSummary)
| PublishedJson (message checksum download_url : string)
| MessageJson (message : string)
| TarballBody (bytes : list Byte.byte) (filename x_checksum_sha256 : string).

Record Response := {
  status : Z;
  content : Content
}.

Definition jsonResponse (data : Content) (st : Z) : Response :=
  {| status := st; content := data |}.

Definition errorResponse (message : string) (st : Z) : Response :=
  jsonResponse (ErrorJson message) st.

(** ** Programs over the environment *)

(** Order in which a key-value namespace lists its keys. *)
Definition key_le (a b : string) : Prop := String.leb a b = true.

Global Instance key_le_dec (a b : string) : Decision (key_le a b) :=
  bool_eq_dec (String.leb a b) true.

(** The operations a handler performs, indexed by what they return. *)
Inductive Op : Type -> Type :=
| Date_toISOString : Op string
| Env_ADMIN_TOKEN : Op (option string)
| Request_arrayBuffer (r : Request) : Op (list Byte.byte)
| Crypto_digest (data : list Byte.byte) : Op string
| TOKENS_get (key : string) : Op (option string)
| USERS_get (key : string) : Op (option User.t)
| USERS_put (key : string) (u : User.t) : Op unit
| PACKAGES_get (key : string) : Op (option PackageMetadata)
| PACKAGES_put (key : string) (m : PackageMetadata) : Op unit
| PACKAGES_list (prefix : string) : Op (list string)
| TARBALLS_get (key : string) : Op (option R2.t)
| TARBALLS_put (key : string) (o : R2.t) : Op unit.


Inductive Prog (A : Type) : Type :=
| Ret (a : A)
| Vis {X : Type} (o : Op X) (k : X -> Prog A).

Arguments Ret {A} a.
Arguments Vis {A X} o k.

Fixpoint bind {A B} (m : Prog A) (f : A -> Prog B) : Prog B :=
  match m with
  | Ret a => f a
  | Vis o k => Vis o (fun x => bind (k x) f)
  end.

Definition call {X} (o : Op X) : Prog X := Vis o Ret.

Notation "'let!' x ':=' m 'in' k" := (bind m (fun x => k))
  (at level 10, x name, m at level 100, k at level 200).

(** Keys of a namespace that start with [prefix], in listing order: what
    [list({ prefix })] returns when the listing fits one page. *)
Definition list_keys {V} (prefix : string) (m : gmap string V) : list string :=
  merge_sort key_le (List.filter (Str.startsWith prefix) (map fst (map_to_list m))).

(** What one operation returns and does to the world. *)
Definition perform {X} (o : Op X) (w : World) : X * World :=
  match o in Op X return X * World with
  | Date_toISOString => (clock w (ticks w), tick w)
  | Env_ADMIN_TOKEN => (ADMIN_TOKEN (env w), w)
  | Request_arrayBuffer r => (body r, w)
  | Crypto_digest data => (sha256_hex w data, w)
  | TOKENS_get key => (TOKENS (env w) !! key, w)
  | USERS_get key => (USERS (env w) !! key, w)
  | USERS_put key u => (tt, with_env w (put_user key u (env w)))
  | PACKAGES_get key => (PACKAGES (env w) !! key, w)
  | PACKAGES_put key m => (tt, with_env w (put_package key m (env w)))
  | PACKAGES_list prefix => (list_keys prefix (PACKAGES (env w)), w)
  | TARBALLS_get key => (TARBALLS (env w) !! key, w)
  | TARBALLS_put key o => (tt, with_env w (put_tarball key o (env w)))
  end.

(** A handler run alone, from start to response. *)
Fixpoint run {A} (p : Prog A) (w : World) : A * World :=
  match p with
  | Ret a => (a, w)
  | Vis o k => let '(x, w') := perform o w in run (k x) w'
  end.

(** ** Array helpers *)

(** [xs.includes(x)] on an array of strings. *)
Definition Array_includes (xs : list string) (x : string) : bool :=
  existsb (String.eqb x) xs.

(** [find] hands out a reference to the first element satisfying [p];
    assigning to a field of it updates that element in place. *)
Fixpoint update_first {A} (p : A -> bool) (f : A -> A) (l : list A) : list A :=
  match l with
  | [] => []
  | x :: l' => if p x then f x :: l' else x :: update_first p f l'
  end.

(** [Array.prototype.sort(cmp)] is stable; with a comparison that orders
    the elements consistently its result is the one of a stable insertion
    sort: each element goes after those that do not come after it. *)
Fixpoint insert_by {A} (cmp : A -> A -> Z) (x : A) (l : list A) : list A :=
  match l with
  | [] => [x]
  | y :: l' => if cmp y x <=? 0 then y :: insert_by cmp x l' else x :: y :: l'
  end.

Definition Array_sort {A} (cmp : A -> A -> Z) (l : list A) : list A :=
  fold_left (fun acc x => insert_by cmp x acc) l [].

(** ** The handlers *)

Definition has_version (v : string) (pv : PackageVersion) : bool :=
  String.eqb (version pv) v.

(** [hashData]: the SHA-256 digest of the data in hexadecimal. *)
Definition hashData (data : list Byte.byte) : Prog string :=
  call (Crypto_digest data).

(** [verifyToken] *)
Definition verifyToken (token : string) : Prog (option User.t) :=
  if Str.is_empty token then Ret None
  else
    let! admin := call Env_ADMIN_TOKEN in
    if match admin with
       | Some a => negb (Str.is_empty a) && String.eqb token a
       | None => false
       end
    then
      let! now := call Date_toISOString in
      Ret (Some {| User.id := "admin"; User.email := "admin@roast-lang.org";
                   User.name := "Admin"; User.created_at := now;
                   User.packages := [] |})
    else
      let! userId := call (TOKENS_get token) in
      match userId with
      | None => Ret None
      | Some userId =>
          if Str.is_empty userId then Ret None
          else
            let! userJson := call (USERS_get userId) in
            match userJson with
            | None => Ret None
            | Some user => Ret (Some user)
            end
      end.

(** The bearer token of a request, when its [Authorization] header starts
    with ["Bearer "]. *)
Definition bearer (request : Request) : option string :=
  match headers request !! "Authorization" with
  | Some authHeader =>
      if Str.startsWith "Bearer " authHeader then Some (Str.slice 7 authHeader)
      else None
  | None => None
  end.

(** [h || undefined] and [h || ''] on a header that may be absent. *)
Definition non_empty (h : option string) : option string :=
  match h with
  | Some s => if Str.is_empty s then None else Some s
  | None => None
  end.

Definition or_empty (h : option string) : string :=
  match h with Some s => s | None => "" end.

Definition tarball_key (name version : string) : string :=
  name +:+ "/" +:+ version +:+ ".tar.gz".

Definition download_path (name version : string) : string :=
  "/api/v1/packages/" +:+ name +:+ "/" +:+ version +:+ "/download".

(** [handleGetPackage] *)
Definition handleGetPackage (name : string) : Prog Response :=
  let! metadataJson := call (PACKAGES_get ("pkg:" +:+ name)) in
  match metadataJson with
  | None => Ret (errorResponse ("Package '" +:+ name +:+ "' not found") 404)
  | Some metadata =>
      let metadata :=
        set_versions
          (map (fun v => set_download_url (download_path name (version v)) v)
               (versions metadata))
          metadata in
      let! _ := call (PACKAGES_put ("pkg:" +:+ name)
                        (set_downloads (downloads metadata + 1) metadata)) in
      Ret (jsonResponse (PackageJson metadata) 200)
  end.

(** The test of [handleSearchPackages] on one record. *)
Definition matches (queryLower : string) (metadata : PackageMetadata) : bool :=
  Str.includes (Str.toLowerCase (name metadata)) queryLower ||
  Str.includes (Str.toLowerCase (description metadata)) queryLower ||
  existsb (fun k => Str.includes (Str.toLowerCase k) queryLower)
          (keywords metadata).

(** The loop of [handleSearchPackages] over the listed keys. *)
Fixpoint search_loop (queryLower : string) (keys : list string)
    (results : list PackageMetadata) : Prog (list PackageMetadata) :=
  match keys with
  | [] => Ret results
  | key :: keys' =>
      let! metadataJson := call (PACKAGES_get key) in
      match metadataJson with
      | None => search_loop queryLower keys' results
      | Some metadata =>
          if matches queryLower metadata
          then search_loop queryLower keys' (results ++ [metadata])
          else search_loop queryLower keys' results
      end
  end.

(** [handleSearchPackages] *)
Definition handleSearchPackages (query : string) : Prog Response :=
  let queryLower := Str.toLowerCase query in
  let! keys := call (PACKAGES_list "pkg:") in
  let! results := search_loop queryLower keys [] in
  Ret (jsonResponse (SearchJson results) 200).

(** [handleDownloadPackage] *)
Definition handleDownloadPackage (name version : string) : Prog Response :=
  let! metadataJson := call (PACKAGES_get ("pkg:" +:+ name)) in
  match metadataJson with
  | None => Ret (errorResponse ("Package '" +:+ name +:+ "' not found") 404)
  | Some metadata =>
      match find (has_version version) (versions metadata) with
      | None =>
          Ret (errorResponse
                 ("Version '" +:+ version +:+ "' not found for '" +:+ name +:+ "'")
                 404)
      | Some versionInfo =>
          if yanked versionInfo
          then Ret (errorResponse
                      ("Version '" +:+ version +:+ "' has been yanked") 410)
          else
            let! tarball := call (TARBALLS_get (tarball_key name version)) in
            match tarball with
            | None => Ret (errorResponse "Package tarball not found" 404)
            | Some tarball =>
                Ret {| status := 200;
                       content :=
                         TarballBody (R2.body tarball)
                           (name +:+ "-" +:+ version +:+ ".tar.gz")
                           (checksum versionInfo) |}
            end
      end
  end.

(** The record of a package published for the first time. *)
Definition new_package (packageName packageDescription : string)
    (user : User.t) (created updated : string) : PackageMetadata :=
  {| name := packageName; description := packageDescription;
     authors := [User.name user]; license := "MIT";
     repository := None; homepage := None; keywords := [];
     versions := []; created_at := created; updated_at := updated;
     downloads := 0 |}.

(** The [newVersion] object of [handlePublishPackage]. *)
Definition new_version (request : Request) (tarball : list Byte.byte)
    (packageVersion checksum published : string) : PackageVersion :=
  {| version := packageVersion; published_at := published; yanked := false;
     checksum := checksum; size := Z.of_nat (length tarball);
     download_url := None;
     signature := non_empty (headers request !! "X-Package-Signature");
     publisher_fingerprint :=
       non_empty (headers request !! "X-Publisher-Fingerprint") |}.

(** The comparison given to [sort]: newest version first. *)
Definition newest_first (a b : PackageVersion) : Z :=
  compareVersions (version b) (version a).

(** The object written to the bucket for a published tarball. *)
Definition tarball_object (user : User.t) (tarball : list Byte.byte)
    (checksum published : string) : R2.t :=
  {| R2.body := tarball; R2.checksum := checksum;
     R2.publisher := User.id user; R2.published_at := published |}.

(** The part of [handlePublishPackage] after the metadata of the package
    is settled: add the version, sort, write the tarball, the metadata
    and the publisher's package list. *)
Definition publish_commit (request : Request) (user : User.t)
    (tarball : list Byte.byte) (packageName packageVersion checksum : string)
    (metadata : PackageMetadata) : Prog Response :=
  let! published := call Date_toISOString in
  let newVersion :=
    new_version request tarball packageVersion checksum published in
  let pushed := versions metadata ++ [newVersion] in
  let sorted := Array_sort newest_first pushed in
  let! updated := call Date_toISOString in
  let metadata := set_updated_at updated (set_versions sorted metadata) in
  let! _ :=
    call (TARBALLS_put (tarball_key packageName packageVersion)
            (tarball_object user tarball checksum published)) in
  let! _ := call (PACKAGES_put ("pkg:" +:+ packageName) metadata) in
  let! _ :=
    if negb (Array_includes (User.packages user) packageName)
    then call (USERS_put (User.id user)
                 (set_packages (User.packages user ++ [packageName]) user))
    else Ret tt in
  Ret (jsonResponse
         (PublishedJson
            ("Published " +:+ packageName +:+ "@" +:+ packageVersion)
            checksum (download_path packageName packageVersion))
         201).

(** The part of [handlePublishPackage] from the checksum on, entered with
    an authenticated user and validated headers. *)
Definition publish_store (request : Request) (user : User.t)
    (tarball : list Byte.byte) (packageName packageVersion : string)
  : Prog Response :=
  let packageDescription := or_empty (headers request !! "X-Package-Description") in
  let! checksum := hashData tarball in
  let! existingJson := call (PACKAGES_get ("pkg:" +:+ packageName)) in
  match existingJson with
  | Some metadata =>
      if existsb (has_version packageVersion) (versions metadata)
      then Ret (errorResponse
                  ("Version " +:+ packageVersion +:+ " already exists") 409)
      else publish_commit request user tarball packageName packageVersion
             checksum metadata
  | None =>
      let! created := call Date_toISOString in
      let! updated := call Date_toISOString in
      publish_commit request user tarball packageName packageVersion checksum
        (new_package packageName packageDescription user created updated)
  end.

(** [handlePublishPackage] *)
Definition handlePublishPackage (request : Request) : Prog Response :=
  match bearer request with
  | None => Ret (errorResponse "Authentication required" 401)
  | Some token =>
      let! user := verifyToken token in
      match user with
      | None => Ret (errorResponse "Invalid authentication token" 401)
      | Some user =>
          let! tarball := call (Request_arrayBuffer request) in
          if (length tarball =? 0)%nat
          then Ret (errorResponse "Empty package tarball" 400)
          else
            match non_empty (headers request !! "X-Package-Name"),
                  non_empty (headers request !! "X-Package-Version") with
            | Some packageName, Some packageVersion =>
                if negb (valid_name packageName)
                then Ret (errorResponse
                            "Invalid package name. Must start with lowercase letter and contain only lowercase letters, numbers, underscores, and hyphens."
                            400)
                else if negb (valid_version packageVersion)
                then Ret (errorResponse
                            "Invalid version format. Expected semver (e.g., 1.0.0)"
                            400)
                else publish_store request user tarball packageName packageVersion
            | _, _ =>
                Ret (errorResponse
                       "Missing X-Package-Name or X-Package-Version header" 400)
            end
      end
  end.

(** [handleYankVersion] *)
Definition handleYankVersion (name version : string) (yank : bool)
    (request : Request) : Prog Response :=
  match bearer request with
  | None => Ret (errorResponse "Authentication required" 401)
  | Some token =>
      let! user := verifyToken token in
      match user with
      | None => Ret (errorResponse "Invalid authentication token" 401)
      | Some user =>
          let! metadataJson := call (PACKAGES_get ("pkg:" +:+ name)) in
          match metadataJson with
          | None =>
              Ret (errorResponse ("Package '" +:+ name +:+ "' not found") 404)
          | Some metadata =>
              match find (has_version version) (versions metadata) with
              | None =>
                  Ret (errorResponse
                         ("Version '" +:+ version +:+ "' not found") 404)
              | Some _ =>
                  if negb (String.eqb (User.id user) "admin") &&
                     negb (Array_includes (User.packages user) name)
                  then Ret (errorResponse
                              "Not authorized to modify this package" 403)
                  else
                    let yanked_versions :=
                      update_first (has_version version) (set_yanked yank)
                        (versions metadata) in
                    let! now := call Date_toISOString in
                    let metadata :=
                      set_updated_at now (set_versions yanked_versions metadata) in
                    let! _ := call (PACKAGES_put ("pkg:" +:+ name) metadata) in
                    Ret (jsonResponse
                           (MessageJson
                              ((if yank then "Yanked" else "Unyanked") +:+ " "
                               +:+ name +:+ "@" +:+ version))
                           200)
              end
          end
      end
  end.

(** [latestVersion?.version || 'none'] for
    [latestVersion = versions.find(v => !v.yanked)]. *)
Definition latest_of (vs : list PackageVersion) : string :=
  match find (fun v => negb (yanked v)) vs with
  | Some latestVersion =>
      if Str.is_empty (version latestVersion) then "none"
      else version latestVersion
  | None => "none"
  end.

(** The entry pushed for one package. *)
Definition summary_of (metadata : PackageMetadata) : PackageSummary :=
  {| summary_name := name metadata;
     summary_description := description metadata;
     latest := latest_of (versions metadata) |}.

(** The loop of [handleListPackages] over the listed keys. *)
Fixpoint list_loop (keys : list string) (packages : list PackageSummary)
  : Prog (list PackageSummary) :=
  match keys with
  | [] => Ret packages
  | key :: keys' =>
      let! metadataJson := call (PACKAGES_get key) in
      match metadataJson with
      | None => list_loop keys' packages
      | Some metadata => list_loop keys' (packages ++ [summary_of metadata])
      end
  end.

(** [handleListPackages] *)
Definition handleListPackages : Prog Response :=
  let! keys := call (PACKAGES_list "pkg:") in
  let! packages := list_loop keys [] in
  Ret (jsonResponse (ListJson packages) 200).

(** ** Concurrent requests *)



(** ** Vocabulary of the statements *)

(** [r] is what the loop of [compareVersions] returns on two padded
    sequences of components: [0] when they agree everywhere, else the
    difference at the first index where they differ. *)
Definition first_difference (A B : nat -> Z) (r : Z) : Prop :=
  (r = 0 /\ forall j, A j = B j) \/
  (exists i, (forall j, (j < i)%nat -> A j = B j) /\ A i <> B i /\ r = A i - B i).

(** The [i]-th component of a version string, [0] when missing. *)
Definition component (s : string) (i : nat) : Z := part (parts s) i.



(** The versions of a list are in descending order of [compareVersions]:
    no element is smaller than a later one. *)
Definition sorted_desc (vs : list string) : Prop :=
  forall i j a b, (i < j)%nat -> vs !! i = Some a -> vs !! j = Some b ->
    0 <= compareVersions a b.

(** A version string up to its first ['-'], and from it on: the
    MAJOR.MINOR.PATCH core and the pre-release suffix. *)
Definition not_dash (c : ascii) : bool := negb (Ascii.eqb c "-"%char).

Definition core_of (s : string) : string := fst (Str.span not_dash s).

Definition prerelease_of (s : string) : string := snd (Str.span not_dash s).

Definition has_dot (s : string) : bool := Str.includes s ".".

(** The records a listing of the [pkg:] keys reads, in listing order. *)
Definition stored_records (w : World) : list PackageMetadata :=
  omap (fun key => PACKAGES (env w) !! key) (list_keys "pkg:" (PACKAGES (env w))).

(** The requests of the JSON API, as [fetch] routes them. *)
Inductive Call :=
| ListPackages
| PublishPackage (request : Request)
| GetPackage (name : string)
| DownloadPackage (name version : string)
| YankVersion (name version : string) (request : Request)
| UnyankVersion (name version : string) (request : Request)
| SearchPackages (query : string).

Definition handle (c : Call) : Prog Response :=
  match c with
  | ListPackages => handleListPackages
  | PublishPackage request => handlePublishPackage request
  | GetPackage name => handleGetPackage name
  | DownloadPackage name version => handleDownloadPackage name version
  | YankVersion name version request =>
      handleYankVersion name version true request
  | UnyankVersion name version request =>
      handleYankVersion name version false request
  | SearchPackages query => handleSearchPackages query
  end.

(** Requests served one after the other, with their responses. *)
Fixpoint serve (calls : list Call) (w : World) : list (Call * Response) * World :=
  match calls with
  | [] => ([], w)
  | c :: calls' =>
      let '(resp, w1) := run (handle c) w in
      let '(log, w2) := serve calls' w1 in
      ((c, resp) :: log, w2)
  end.

(** A served request that published a version of [name]. *)
Definition published (name : string) (entry : Call * Response) : bool :=
  match entry with
  | (PublishPackage request, resp) =>
      (status resp =? 201) &&
      match non_empty (headers request !! "X-Package-Name") with
      | Some packageName => String.eqb packageName name
      | None => false
      end
  | _ => false
  end.

(** A string that stops a span: empty, or starting with a rejected
    character. *)
Definition stops (p : ascii -> bool) (b : string) : Prop :=
  match b with EmptyString => True | String c _ => p c = false end.

Definition not_sep (sep c : ascii) : bool := negb (Ascii.eqb c sep).

(** [a] does not come after [b] in the order of a comparison function. *)
Definition precedes {A} (cmp : A -> A -> Z) (a b : A) : Prop := cmp a b <= 0.

(** The metadata written by a publish on top of [metadata]. *)
Definition committed (request : Request) (tarball : list Byte.byte)
    (packageVersion checksum published updated : string)
    (metadata : PackageMetadata) : PackageMetadata :=
  set_updated_at updated
    (set_versions
       (Array_sort newest_first
          (versions metadata ++
             [new_version request tarball packageVersion checksum published]))
       metadata).

(** The write to [USERS] that ends a publish. *)
Definition grant (user : User.t) (packageName : string) (e : Env) : Env :=
  if Array_includes (User.packages user) packageName then e
  else put_user (User.id user)
         (set_packages (User.packages user ++ [packageName]) user) e.

(** What [handlePublishPackage] checks before it reads the store: the
    request carries a token that [verifyToken] accepts, a tarball that is
    not empty and a valid name and version. *)
Definition accepted (request : Request) (w : World)
    (user : User.t) (packageName packageVersion : string) : Prop :=
  exists token,
    bearer request = Some token /\
    fst (run (verifyToken token) w) = Some user /\
    body request <> [] /\
    non_empty (headers request !! "X-Package-Name") = Some packageName /\
    non_empty (headers request !! "X-Package-Version") = Some packageVersion /\
    valid_name packageName = true /\ valid_version packageVersion = true.

(** The world after authentication: only the clock may have been read. *)
Definition authenticated_world (request : Request) (w : World) : World :=
  match bearer request with
  | Some token => snd (run (verifyToken token) w)
  | None => w
  end.

(** The caller may modify the package: the check of [handleYankVersion]. *)
Definition may_modify (user : User.t) (pkg : string) : bool :=
  String.eqb (User.id user) "admin" || Array_includes (User.packages user) pkg.

(** Two version records that agree on every field but [yanked]. *)
Definition same_but_yanked (v v' : PackageVersion) : Prop :=
  version v' = version v /\ published_at v' = published_at v /\
  checksum v' = checksum v /\ size v' = size v /\
  download_url v' = download_url v /\ signature v' = signature v /\
  publisher_fingerprint v' = publisher_fingerprint v.

(** Two package records that agree on every field but [versions] and
    [updated_at]. *)
Definition same_descriptive (m m' : PackageMetadata) : Prop :=
  name m' = name m /\ description m' = description m /\
  authors m' = authors m /\ license m' = license m /\
  repository m' = repository m /\ homepage m' = homepage m /\
  keywords m' = keywords m /\ created_at m' = created_at m /\
  downloads m' = downloads m.

(** Two environments that hold the same users, tokens, tarballs and
    secret, and the same packages but the one under [key]. *)
Definition same_but_package (key : string) (e e' : Env) : Prop :=
  USERS e' = USERS e /\ TOKENS e' = TOKENS e /\ TARBALLS e' = TARBALLS e /\
  ADMIN_TOKEN e' = ADMIN_TOKEN e /\
  forall key', key' <> key -> PACKAGES e' !! key' = PACKAGES e !! key'.

(** The version strings stored for a package, in stored order. *)
Definition stored_versions (w : World) (pkg : string) : list string :=
  match PACKAGES (env w) !! ("pkg:" +:+ pkg) with
  | Some metadata => map version (versions metadata)
  | None => []
  end.

(** ** A small registry to evaluate the handlers on *)

Module Demo.

Definition time_at (n : nat) : string :=
  "2024-05-01T10:00:0" +:+ String (ascii_of_nat (48 + n mod 10)) "Z".

(** Stands for the SHA-256 digest: the bytes themselves, read as text. *)
Definition digest (data : list Byte.byte) : string := string_of_list_byte data.

Definition alice : User.t :=
  {| User.id := "u-alice"; User.email := "alice@example.org";
     User.name := "Alice"; User.created_at := "2024-01-01T00:00:00Z";
     User.packages := ["json-lib"] |}.

Definition bob : User.t :=
  {| User.id := "u-bob"; User.email := "bob@example.org";
     User.name := "Bob"; User.created_at := "2024-01-02T00:00:00Z";
     User.packages := [] |}.

Definition json_lib_1_0_0 : PackageVersion :=
  {| version := "1.0.0"; published_at := "2024-02-01T00:00:00Z";
     yanked := false; checksum := "abc"; size := 3; download_url := None;
     signature := None; publisher_fingerprint := None |}.

Definition json_lib : PackageMetadata :=
  {| name := "json-lib"; description := "A JSON Parser";
     authors := ["Alice"]; license := "MIT"; repository := None;
     homepage := None; keywords := ["Serialization"];
     versions := [json_lib_1_0_0];
     created_at := "2024-02-01T00:00:00Z";
     updated_at := "2024-02-01T00:00:00Z"; downloads := 0 |}.

Definition bytes (s : string) : list Byte.byte := list_byte_of_string s.

Definition registry : Env :=
  {| PACKAGES := {[ "pkg:json-lib" := json_lib ]};
     USERS := {[ "u-alice" := alice; "u-bob" := bob ]};
     TOKENS := {[ "tok-alice" := "u-alice"; "tok-bob" := "u-bob" ]};
     TARBALLS :=
       {[ "json-lib/1.0.0.tar.gz" :=
            {| R2.body := bytes "abc"; R2.checksum := "abc";
               R2.publisher := "u-alice";
               R2.published_at := "2024-02-01T00:00:00Z" |} ]};
     ADMIN_TOKEN := Some "root-secret" |}.

Definition world : World :=
  {| env := registry; sha256_hex := digest; clock := time_at; ticks := 0 |}.

(** The same registry before anything was published. *)
Definition empty_registry : Env :=
  {| PACKAGES := ∅; USERS := USERS registry; TOKENS := TOKENS registry;
     TARBALLS := ∅; ADMIN_TOKEN := ADMIN_TOKEN registry |}.

Definition empty_world : World := with_env world empty_registry.

Definition authorized (token : string) : Request :=
  {| headers := {[ "Authorization" := "Bearer " +:+ token ]}; body := [] |}.

Definition publish (token name version tarball : string) : Request :=
  {| headers :=
       {[ "Authorization" := "Bearer " +:+ token;
          "X-Package-Name" := name;
          "X-Package-Version" := version;
          "X-Package-Description" := "published by " +:+ token ]};
     body := bytes tarball |}.

(** The registry after Alice yanked json-lib 1.0.0. *)
Definition yanked_world : World :=
  snd (run (handleYankVersion "json-lib" "1.0.0" true (authorized "tok-alice"))
         world).


(** Requests served from the empty registry: two versions of json-lib,
    a repeated one, a yank, and a package of another name. *)
Definition session : list Call :=
  [ PublishPackage (publish "tok-alice" "json-lib" "1.2.0" "abc");
    PublishPackage (publish "tok-bob" "json-lib" "1.10.0" "xyz");
    PublishPackage (publish "tok-alice" "json-lib" "1.2.0" "abc");
    YankVersion "json-lib" "1.2.0" (authorized "tok-alice");
    PublishPackage (publish "tok-bob" "yaml-lib" "0.1.0" "uvw");
    GetPackage "json-lib" ].

End Demo.

(** ** The routes of [fetch] *)

(** A path pattern of the router: a literal segment, or [None] for a
    group [([^/]+)], between slashes; [^\/a\/([^/]+)\/b$] is
    [[Some ""; Some "a"; None; Some "b"]] on the path split at ['/'].
    The result lists what the groups matched. *)
Fixpoint match_path (pattern : list (option string)) (segments : list string)
  : option (list string) :=
  match pattern, segments with
  | [], [] => Some []
  | Some literal :: pattern', s :: segments' =>
      if String.eqb s literal then match_path pattern' segments' else None
  | None :: pattern', s :: segments' =>
      if Str.is_empty s then None
      else match match_path pattern' segments' with
           | Some groups => Some (s :: groups)
           | None => None
           end
  | _, _ => None
  end.

Definition path_match (pattern : list (option string)) (path : string)
  : option (list string) :=
  match_path pattern (Str.split "/" path).

(** Where [fetch] sends a request. *)
Inductive Route :=
| CorsPreflight
| HomeRoute
| SearchRoute (query : string)
| DocsRoute
| PackageRoute (name : string)
| RegistryInfo
| Api (c : Call)
| RegisterUser
| NotFound.

(** The dispatch of [fetch] on the method, the path and the [q]
    parameter of the URL. *)
Definition route (method path : string) (q : option string) (request : Request)
  : Route :=
  let GET := String.eqb method "GET" in
  let POST := String.eqb method "POST" in
  if String.eqb method "OPTIONS" then CorsPreflight
  else if String.eqb path "/" && GET then HomeRoute
  else if String.eqb path "/search" && GET then SearchRoute (or_empty q)
  else if String.eqb path "/docs" && GET then DocsRoute
  else
    match path_match [Some ""; Some "packages"; None] path, GET with
    | Some [name], true => PackageRoute name
    | _, _ =>
    if String.eqb path "/api/v1" then RegistryInfo
    else if String.eqb path "/api/v1/packages" && GET then Api ListPackages
    else if String.eqb path "/api/v1/packages" && POST
    then Api (PublishPackage request)
    else
    match path_match [Some ""; Some "api"; Some "v1"; Some "packages"; None] path,
          GET with
    | Some [name], true => Api (GetPackage name)
    | _, _ =>
    match path_match [Some ""; Some "api"; Some "v1"; Some "packages"; None; None;
                      Some "download"] path, GET with
    | Some [name; version], true => Api (DownloadPackage name version)
    | _, _ =>
    match path_match [Some ""; Some "api"; Some "v1"; Some "packages"; None; None;
                      Some "yank"] path, POST with
    | Some [name; version], true => Api (YankVersion name version request)
    | _, _ =>
    match path_match [Some ""; Some "api"; Some "v1"; Some "packages"; None; None;
                      Some "unyank"] path, POST with
    | Some [name; version], true => Api (UnyankVersion name version request)
    | _, _ =>
    if String.eqb path "/api/v1/search" && GET
    then Api (SearchPackages (or_empty q))
    else if String.eqb path "/api/v1/users/register" && POST then RegisterUser
    else NotFound
    end end end end
    end.

(** ** The pages of the web UI *)

(** What [fetch] hands to the templates: the page and its data. *)
Record HomeEntry := {
  entry_name : string;
  entry_description : string;
  entry_latest : string;
  entry_downloads : Z;
  entry_updated_at : string
}.

Record SearchEntry := {
  hit_name : string;
  hit_description : string;
  hit_latest : string;
  hit_downloads : Z
}.

Record Stats := {
  totalPackages : Z;
  totalDownloads : Z;
  totalVersions : Z
}.

Inductive Page :=
| homePage (packages : list HomeEntry) (stats : Stats)
| searchPage (packages : list SearchEntry) (query : string)
| docsPage
| packagePage (package : PackageMetadata)
| notFoundPage.

Record HtmlResponse := {
  html_status : Z;
  page : Page
}.

Definition htmlResponse (html : Page) (st : Z) : HtmlResponse :=
  {| html_status := st; page := html |}.

Definition home_entry (metadata : PackageMetadata) : HomeEntry :=
  {| entry_name := name metadata;
     entry_description := description metadata;
     entry_latest := latest_of (versions metadata);
     entry_downloads := downloads metadata;
     entry_updated_at := updated_at metadata |}.

Definition search_entry (metadata : PackageMetadata) : SearchEntry :=
  {| hit_name := name metadata;
     hit_description := description metadata;
     hit_latest := latest_of (versions metadata);
     hit_downloads := downloads metadata |}.

(** The loop of the [GET /] route. *)
Fixpoint home_loop (keys : list string) (packages : list HomeEntry)
    (totalDownloads totalVersions : Z) : Prog (list HomeEntry * Z * Z) :=
  match keys with
  | [] => Ret (packages, totalDownloads, totalVersions)
  | key :: keys' =>
      let! metadataJson := call (PACKAGES_get key) in
      match metadataJson with
      | None => home_loop keys' packages totalDownloads totalVersions
      | Some metadata =>
          home_loop keys' (packages ++ [home_entry metadata])
            (totalDownloads + downloads metadata)
            (totalVersions + Z.of_nat (length (versions metadata)))
      end
  end.

(** The [GET /] route. *)
Definition fetch_home : Prog HtmlResponse :=
  let! keys := call (PACKAGES_list "pkg:") in
  let! result := home_loop keys [] 0 0 in
  let '(packages, totalDownloads, totalVersions) := result in
  Ret (htmlResponse
         (homePage packages
            {| totalPackages := Z.of_nat (length packages);
               totalDownloads := totalDownloads;
               totalVersions := totalVersions |})
         200).

(** The loop of the [GET /search] route. *)
Fixpoint search_page_loop (queryLower : string) (keys : list string)
    (packages : list SearchEntry) : Prog (list SearchEntry) :=
  match keys with
  | [] => Ret packages
  | key :: keys' =>
      let! metadataJson := call (PACKAGES_get key) in
      match metadataJson with
      | None => search_page_loop queryLower keys' packages
      | Some metadata =>
          if matches queryLower metadata
          then search_page_loop queryLower keys' (packages ++ [search_entry metadata])
          else search_page_loop queryLower keys' packages
      end
  end.

(** The [GET /search] route. *)
Definition fetch_search (query : string) : Prog HtmlResponse :=
  let queryLower := Str.toLowerCase query in
  let! keys := call (PACKAGES_list "pkg:") in
  let! packages := search_page_loop queryLower keys [] in
  Ret (htmlResponse (searchPage packages query) 200).


(** ** HTML escaping *)

(** [s.replace(/c/g, replacement)] for one character [c]. *)
Fixpoint replace_all (c : ascii) (replacement : string) (s : string) : string :=
  match s with
  | EmptyString => EmptyString
  | String x s' =>
      if Ascii.eqb x c then replacement +:+ replace_all c replacement s'
      else String x (replace_all c replacement s')
  end.

(** The double quote character. *)
Definition dquote : ascii := ascii_of_nat 34.

(** [escapeHtml] of [templates.ts]. *)
Definition escapeHtml (unsafe : string) : string :=
  if Str.is_empty unsafe then ""
  else
    replace_all "'" "&#039;"
      (replace_all dquote "&quot;"
         (replace_all ">" "&gt;"
            (replace_all "<" "&lt;"
               (replace_all "&" "&amp;" unsafe)))).

(** What [escapeHtml] makes of one character. *)
Definition escape_char (c : ascii) : string :=
  if Ascii.eqb c "&" then "&amp;"
  else if Ascii.eqb c "<" then "&lt;"
  else if Ascii.eqb c ">" then "&gt;"
  else if Ascii.eqb c dquote then "&quot;"
  else if Ascii.eqb c "'" then "&#039;"
  else String c "".

(** The characters that [escapeHtml] replaces. *)
Definition is_markup (c : ascii) : bool :=
  Ascii.eqb c "&" || Ascii.eqb c "<" || Ascii.eqb c ">" ||
  Ascii.eqb c dquote || Ascii.eqb c "'".

(** The five character references [escapeHtml] writes. *)
Definition is_reference (s : string) : bool :=
  String.eqb s "&amp;" || String.eqb s "&lt;" || String.eqb s "&gt;" ||
  String.eqb s "&quot;" || String.eqb s "&#039;".

Fixpoint concat_strings (l : list string) : string :=
  match l with
  | [] => ""
  | s :: l' => s +:+ concat_strings l'
  end.

(** ** Registration *)

Module Register.

(** A value of the [USERS] namespace: the JSON of a user under the user's
    id, or a user id under an [email:] key. *)
Inductive UsersValue :=
| UserJson (user : User.t)
| UserId (userId : string).

(** The two namespaces [handleRegisterUser] reads and writes. *)
Record Store := {
  USERS : gmap string UsersValue;
  TOKENS : gmap string string
}.

(** The body of the request, [request.json()]. *)
Record Body := {
  email : option string;
  name : option string
}.

Inductive Reply :=
| Error (message : string) (status : Z)
| Registered (message user_id api_token : string) (status : Z).

(** A value read from the namespace is a string; it is falsy when it is
    the empty one. *)
Definition truthy (v : option UsersValue) : bool :=
  match v with
  | Some (UserJson _) => true
  | Some (UserId userId) => negb (Str.is_empty userId)
  | None => false
  end.

(** [handleRegisterUser].  [userId] and [apiToken] are what the two calls
    of [crypto.randomUUID()] return, [now] what the clock reads. *)
Definition handleRegisterUser (body : Body) (userId apiToken now : string)
    (s : Store) : Reply * Store :=
  match non_empty (email body), non_empty (name body) with
  | Some email, Some name =>
      if truthy (USERS s !! ("email:" +:+ email))
      then (Error "Email already registered" 409, s)
      else
        let user :=
          {| User.id := userId; User.email := email; User.name := name;
             User.created_at := now; User.packages := [] |} in
        let users1 := <[userId := UserJson user]> (USERS s) in
        let users2 := <["email:" +:+ email := UserId userId]> users1 in
        (Registered "User registered successfully" userId apiToken 201,
         {| USERS := users2; TOKENS := <[apiToken := userId]> (TOKENS s) |})
  | _, _ => (Error "Missing email or name" 400, s)
  end.

(** The user records of the namespace, as [verifyToken] parses them. *)
Definition user_records (s : Store) : gmap string User.t :=
  omap (fun v => match v with UserJson u => Some u | UserId _ => None end)
       (USERS s).

End Register.

(** The bindings of the worker with the users and tokens of a store: the
    handlers read a user with [JSON.parse], which only a user record
    passes. *)
Definition with_accounts (s : Register.Store) (e : Env) : Env :=
  {| PACKAGES := PACKAGES e; USERS := Register.user_records s;
     TOKENS := Register.TOKENS s; TARBALLS := TARBALLS e;
     ADMIN_TOKEN := ADMIN_TOKEN e |}.

(** ** Vocabulary of the routes and of the home page *)

(** The path made of segments, [segments.join('/')]. *)
Fixpoint join_path (segments : list string) : string :=
  match segments with
  | [] => ""
  | [s] => s
  | s :: rest => s +:+ String "/" (join_path rest)
  end.

(** What the class [[^/]+] of the route patterns matches. *)
Definition is_segment (s : string) : Prop :=
  s <> "" /\ Str.forallb (not_sep "/") s = true.

(** The sum of a list of numbers. *)
Definition sum_Z (l : list Z) : Z := foldr Z.add 0 l.

(** * Properties *)

Local Open Scope Z_scope.

(** ** Version comparison *)

Example compare_1_2_0_1_10_0 : compareVersions "1.2.0" "1.10.0" = -8.
Proof. reflexivity. Qed.

Example compare_dotted_prerelease :
  compareVersions "1.0.0-alpha.1" "1.0.0-alpha.2" = -1.
Proof. reflexivity. Qed.

Example valid_version_examples :
  valid_version "1.0.0" = true /\ valid_version "1.0.0-alpha.1" = true /\
  valid_version "1.0" = false /\ valid_version "1.0.0-" = false /\
  valid_version "1.0.0+x" = false.
Proof. repeat split; reflexivity. Qed.


Example parseInt_examples :
  parseInt "42" = Some 42 /\ parseInt "  7px" = Some 7 /\
  parseInt "-3" = Some (-3) /\ parseInt "+5" = Some 5 /\
  parseInt "0-alpha" = Some 0 /\ parseInt "alpha" = None /\
  parseInt "" = None /\ parseInt "-" = None.
Proof. repeat split; reflexivity. Qed.

Example parts_examples :
  parts "1.10.0" = [1; 10; 0] /\ parts "1.0.0-alpha.1" = [1; 0; 0; 1] /\
  parts "1..x" = [1; 0; 0] /\ parts "" = [0].
Proof. repeat split; reflexivity. Qed.

Example string_examples :
  Str.split "." "a.b..c" = ["a"; "b"; ""; "c"] /\
  Str.toLowerCase "JSON-Lib 2" = "json-lib 2" /\
  Str.includes "a json parser" "json" = true /\
  Str.includes "a json parser" "yaml" = false /\
  Str.includes "" "" = true /\
  Str.slice 7 "Bearer tok-alice" = "tok-alice".
Proof. repeat split; reflexivity. Qed.

Example valid_name_examples :
  valid_name "json-lib" = true /\ valid_name "a_1" = true /\
  valid_name "Json" = false /\ valid_name "1lib" = false /\
  valid_name "" = false /\ valid_name "json lib" = false.
Proof. repeat split; reflexivity. Qed.

Lemma part_past_end ps i : (length ps <= i)%nat -> part ps i = 0.
Proof. intros H. unfold part. now apply nth_overflow. Qed.

Lemma compare_loop_first_difference pa pb k : forall i,
  (forall j, (j < i)%nat -> part pa j = part pb j) ->
  (Nat.max (length pa) (length pb) <= i + k)%nat ->
  first_difference (part pa) (part pb) (compare_loop pa pb i k).
Proof.
  induction k as [|k IH]; intros i Hbelow Hlen; simpl.
  - left. split; [reflexivity|]. intros j.
    destruct (Nat.lt_ge_cases j i) as [Hj|Hj]; [now apply Hbelow|].
    rewrite !part_past_end by lia. reflexivity.
  - destruct (Z.eqb_spec (part pa i) (part pb i)) as [Heq|Hne]; simpl.
    + apply IH; [|lia]. intros j Hj.
      destruct (Nat.eq_dec j i) as [->|Hji]; [exact Heq|apply Hbelow; lia].
    + right. exists i. auto.
Qed.

Lemma compareVersions_first_difference a b :
  first_difference (component a) (component b) (compareVersions a b).
Proof.
  unfold compareVersions, component.
  apply compare_loop_first_difference; [intros j Hj; lia | lia].
Qed.

(** Two first differences of the same sequences are at the same index. *)
Lemma first_difference_unique (A B : nat -> Z) i i' :
  (forall j, (j < i)%nat -> A j = B j) -> A i <> B i ->
  (forall j, (j < i')%nat -> A j = B j) -> A i' <> B i' -> i = i'.
Proof.
  intros H1 H2 H3 H4.
  destruct (Nat.lt_trichotomy i i') as [H|[H|H]]; [|exact H|].
  - exfalso. apply H2. now apply H3.
  - exfalso. apply H4. now apply H1.
Qed.

Lemma first_difference_functional A B r r' :
  first_difference A B r -> first_difference A B r' -> r = r'.
Proof.
  intros [[-> H]|(i & Hi & Hne & ->)] [[-> H']|(i' & Hi' & Hne' & ->)]; try reflexivity.
  - exfalso. apply Hne'. apply H.
  - exfalso. apply Hne. apply H'.
  - now rewrite (first_difference_unique A B i i').
Qed.


Lemma first_difference_swap A B r :
  first_difference A B r -> first_difference B A (- r).
Proof.
  intros [[-> H]|(i & Hi & Hne & ->)].
  - left. split; [reflexivity|]. intros j. symmetry. apply H.
  - right. exists i. split; [|split]; [|congruence|lia].
    intros j Hj. symmetry. now apply Hi.
Qed.

Lemma first_difference_trans A B C r1 r2 r3 :
  first_difference A B r1 -> first_difference B C r2 -> first_difference A C r3 ->
  r1 <= 0 -> r2 <= 0 -> r3 <= 0.
Proof.
  intros H1 H2 [[-> _]|(k & Hk & Hnk & ->)] Hr1 Hr2; [lia|].
  destruct H1 as [[-> HAB]|(i & Hi & Hni & ->)];
    destruct H2 as [[-> HBC]|(j & Hj & Hnj & ->)].
  - exfalso. apply Hnk. now rewrite HAB.
  - destruct (Nat.lt_trichotomy j k) as [H|[->|H]].
    + exfalso. apply Hnj. rewrite <- HAB. now apply Hk.
    + rewrite HAB. lia.
    + exfalso. apply Hnk. rewrite HAB. now apply Hj.
  - destruct (Nat.lt_trichotomy i k) as [H|[->|H]].
    + exfalso. apply Hni. rewrite HBC. now apply Hk.
    + rewrite <- HBC. lia.
    + exfalso. apply Hnk. rewrite <- HBC. now apply Hi.
  - destruct (Nat.lt_trichotomy i j) as [Hij|[->|Hij]].
    + (* A and B differ first, B = C up to i *)
      destruct (Nat.lt_trichotomy i k) as [H|[->|H]].
      * exfalso. apply Hni. rewrite (Hj i Hij). now apply Hk.
      * rewrite <- (Hj k Hij). lia.
      * exfalso. apply Hnk. rewrite (Hi k H). apply Hj. lia.
    + destruct (Nat.lt_trichotomy j k) as [H|[->|H]].
      * exfalso. specialize (Hk j H). lia.
      * lia.
      * exfalso. apply Hnk. rewrite (Hi k H). now apply Hj.
    + destruct (Nat.lt_trichotomy j k) as [H|[->|H]].
      * exfalso. apply Hnj. rewrite <- (Hi j Hij). now apply Hk.
      * rewrite (Hi k Hij). lia.
      * exfalso. apply Hnk. rewrite (Hi k) by lia. now apply Hj.
Qed.


Lemma compareVersions_swap a b : compareVersions b a = - compareVersions a b.
Proof.
  eapply first_difference_functional; [apply compareVersions_first_difference|].
  apply first_difference_swap, compareVersions_first_difference.
Qed.

Lemma compareVersions_trans a b c :
  compareVersions a b <= 0 -> compareVersions b c <= 0 -> compareVersions a c <= 0.
Proof.
  eapply first_difference_trans; apply compareVersions_first_difference.
Qed.


Lemma span_app p s a b : Str.span p s = (a, b) -> s = a +:+ b /\ Str.forallb p a = true.
Proof.
  revert a b. induction s as [|c s IH]; intros a b; simpl.
  - intros [= <- <-]. auto.
  - destruct (p c) eqn:Hc.
    + destruct (Str.span p s) as [a' b'] eqn:Hs. intros [= <- <-].
      destruct (IH _ _ eq_refl) as [-> Hf]. simpl. rewrite Hc. auto.
    + intros [= <- <-]. auto.
Qed.

Lemma span_stops p s a b : Str.span p s = (a, b) -> stops p b.
Proof.
  revert a b. induction s as [|c s IH]; intros a b; simpl.
  - intros [= <- <-]. exact I.
  - destruct (p c) eqn:Hc.
    + destruct (Str.span p s) as [a' b'] eqn:Hs. intros [= <- <-]. eapply IH; eauto.
    + intros [= <- <-]. exact Hc.
Qed.

Lemma span_intro p a b :
  Str.forallb p a = true -> stops p b -> Str.span p (a +:+ b) = (a, b).
Proof.
  induction a as [|c a IH]; simpl; intros Ha Hb.
  - destruct b as [|c b]; simpl in *; [reflexivity|]. now rewrite Hb.
  - apply andb_true_iff in Ha as [Hc Ha]. rewrite Hc.
    rewrite (IH Ha Hb). reflexivity.
Qed.


Lemma split_no_sep sep s :
  Str.forallb (not_sep sep) s = true -> Str.split sep s = [s].
Proof.
  induction s as [|c s IH]; simpl; [reflexivity|]. unfold not_sep at 1.
  intros H. apply andb_true_iff in H as [Hc Hs].
  destruct (Ascii.eqb c sep); [discriminate|]. now rewrite (IH Hs).
Qed.

Lemma split_app_sep sep a b :
  Str.forallb (not_sep sep) a = true ->
  Str.split sep (a +:+ String sep b) = a :: Str.split sep b.
Proof.
  induction a as [|c a IH]; simpl.
  - intros _. now rewrite Ascii.eqb_refl.
  - unfold not_sep at 1. intros H. apply andb_true_iff in H as [Hc Hs].
    destruct (Ascii.eqb c sep); [discriminate|].
    now rewrite (IH Hs).
Qed.

Lemma forallb_impl (p q : ascii -> bool) s :
  (forall c, p c = true -> q c = true) -> Str.forallb p s = true -> Str.forallb q s = true.
Proof.
  intros Hpq. induction s as [|c s IH]; simpl; [auto|].
  intros H. apply andb_true_iff in H as [Hc Hs]. now rewrite (Hpq c Hc), IH.
Qed.

Lemma forallb_app p a b :
  Str.forallb p (a +:+ b) = Str.forallb p a && Str.forallb p b.
Proof.
  induction a as [|c a IH]; simpl; [reflexivity|]. now rewrite IH, andb_assoc.
Qed.

Lemma is_digit_not_dot c : Str.is_digit c = true -> not_sep "." c = true.
Proof. destruct c as [[] [] [] [] [] [] [] []]; vm_compute; congruence. Qed.

Lemma is_digit_not_dash c : Str.is_digit c = true -> not_dash c = true.
Proof. destruct c as [[] [] [] [] [] [] [] []]; vm_compute; congruence. Qed.

(** The shape of a string accepted by the version pattern. *)
Lemma valid_version_inv s :
  valid_version s = true ->
  exists d1 d2 d3 r,
    s = d1 +:+ String "." (d2 +:+ String "." (d3 +:+ r)) /\
    Str.forallb Str.is_digit d1 = true /\ Str.forallb Str.is_digit d2 = true /\
    Str.forallb Str.is_digit d3 = true /\ d1 <> "" /\ d2 <> "" /\ d3 <> "" /\
    valid_prerelease r = true.
Proof.
  unfold valid_version.
  destruct (Str.span Str.is_digit s) as [d1 r1] eqn:H1.
  intros H. apply andb_true_iff in H as [E1 H].
  destruct r1 as [|c1 r1]; [discriminate|].
  destruct (Ascii.eqb_spec c1 ".") as [->|Hc1];
    [|destruct c1 as [[] [] [] [] [] [] [] []]; try discriminate; now destruct Hc1].
  destruct (Str.span Str.is_digit r1) as [d2 r2] eqn:H2.
  apply andb_true_iff in H as [E2 H].
  destruct r2 as [|c2 r2]; [discriminate|].
  destruct (Ascii.eqb_spec c2 ".") as [->|Hc2];
    [|destruct c2 as [[] [] [] [] [] [] [] []]; try discriminate; now destruct Hc2].
  destruct (Str.span Str.is_digit r2) as [d3 r3] eqn:H3.
  apply andb_true_iff in H as [E3 H].
  apply span_app in H1 as [-> F1], H2 as [-> F2], H3 as [-> F3].
  exists d1, d2, d3, r3. repeat split; auto.
  - now destruct d1.
  - now destruct d2.
  - now destruct d3.
Qed.

Lemma valid_prerelease_stops r : valid_prerelease r = true -> stops not_dash r.
Proof.
  destruct r as [|c r]; simpl; [auto|].
  destruct (Ascii.eqb_spec c "-") as [->|Hc]; [reflexivity|].
  destruct c as [[] [] [] [] [] [] [] []]; try discriminate. now destruct Hc.
Qed.

Lemma append_cons x (a b : string) : String x a +:+ b = String x (a +:+ b).
Proof. reflexivity. Qed.


Lemma append_assoc (a b c : string) : (a +:+ b) +:+ c = a +:+ (b +:+ c).
Proof.
  induction a as [|x a IH]; [reflexivity|].
  rewrite !append_cons. now rewrite IH.
Qed.

Lemma has_dot_false r : has_dot r = false -> Str.forallb (not_sep ".") r = true.
Proof.
  unfold has_dot. induction r as [|c r IH]; [reflexivity|].
  cbn [Str.includes Str.startsWith Str.forallb].
  intros H. apply orb_false_iff in H as [Hc Hr].
  rewrite andb_true_r in Hc.
  unfold not_sep at 1. rewrite Ascii.eqb_sym, Hc. now apply IH.
Qed.

Lemma prerelease_of_shape d1 d2 d3 r :
  Str.forallb Str.is_digit d1 = true -> Str.forallb Str.is_digit d2 = true ->
  Str.forallb Str.is_digit d3 = true -> valid_prerelease r = true ->
  prerelease_of (d1 +:+ String "." (d2 +:+ String "." (d3 +:+ r))) = r /\
  core_of (d1 +:+ String "." (d2 +:+ String "." (d3 +:+ r)))
    = d1 +:+ String "." (d2 +:+ String "." d3).
Proof.
  intros F1 F2 F3 Hr. unfold prerelease_of, core_of.
  replace (d1 +:+ String "." (d2 +:+ String "." (d3 +:+ r)))
    with ((d1 +:+ String "." (d2 +:+ String "." d3)) +:+ r).
  2:{ rewrite append_assoc, append_cons, append_assoc, append_cons. reflexivity. }
  rewrite span_intro; [auto| |now apply valid_prerelease_stops].
  rewrite forallb_app. simpl. rewrite forallb_app. simpl.
  rewrite !(forallb_impl _ _ _ is_digit_not_dash) by assumption. reflexivity.
Qed.

Lemma parts_length_3 s :
  valid_version s = true -> has_dot (prerelease_of s) = false ->
  length (parts s) = 3%nat.
Proof.
  intros Hv Hd.
  destruct (valid_version_inv s Hv) as (d1 & d2 & d3 & r & -> & F1 & F2 & F3 & _ & _ & _ & Hr).
  destruct (prerelease_of_shape d1 d2 d3 r F1 F2 F3 Hr) as [E _].
  rewrite E in Hd. unfold parts. rewrite length_map.
  rewrite split_app_sep by (eapply forallb_impl; [apply is_digit_not_dot|assumption]).
  rewrite split_app_sep by (eapply forallb_impl; [apply is_digit_not_dot|assumption]).
  rewrite split_no_sep; [reflexivity|].
  rewrite forallb_app, (has_dot_false r Hd), andb_true_r.
  eapply forallb_impl; [apply is_digit_not_dot|assumption].
Qed.

Lemma compareVersions_same_length_3 a b :
  length (parts a) = 3%nat -> length (parts b) = 3%nat ->
  (forall i, (i < 3)%nat -> component a i = component b i) ->
  compareVersions a b = 0.
Proof.
  intros La Lb H.
  destruct (compareVersions_first_difference a b) as [[-> _]|(i & _ & Hne & _)];
    [reflexivity|].
  exfalso. apply Hne. destruct (Nat.lt_ge_cases i 3) as [Hi|Hi]; [now apply H|].
  unfold component. rewrite !part_past_end by lia. reflexivity.
Qed.







(** *** Sorting *)

Section Sorting.
Context {A : Type} (cmp : A -> A -> Z).
Hypothesis cmp_total : forall a b, cmp a b <= 0 \/ cmp b a <= 0.
Hypothesis cmp_trans : forall a b c, cmp a b <= 0 -> cmp b c <= 0 -> cmp a c <= 0.

Lemma insert_by_Permutation x l : insert_by cmp x l ≡ₚ x :: l.
Proof.
  induction l as [|y l IH]; simpl; [reflexivity|].
  destruct (cmp y x <=? 0); [|reflexivity].
  rewrite IH. apply Permutation_swap.
Qed.

Lemma insert_by_sorted x l :
  StronglySorted (precedes cmp) l -> StronglySorted (precedes cmp) (insert_by cmp x l).
Proof.
  induction 1 as [|y l Hs IH Hy]; simpl.
  - repeat constructor.
  - destruct (Z.leb_spec (cmp y x) 0) as [Hle|Hgt].
    + constructor; [exact IH|].
      rewrite insert_by_Permutation. constructor; assumption.
    + assert (Hxy : precedes cmp x y)
        by (unfold precedes; destruct (cmp_total x y); [assumption|lia]).
      constructor; [constructor; assumption|].
      constructor; [exact Hxy|].
      eapply Forall_impl; [exact Hy|]. intros z Hz. eapply cmp_trans; eauto.
Qed.

Lemma fold_insert_Permutation l acc :
  fold_left (fun acc x => insert_by cmp x acc) l acc ≡ₚ acc ++ l.
Proof.
  revert acc. induction l as [|x l IH]; intros acc; simpl.
  - now rewrite app_nil_r.
  - rewrite IH, insert_by_Permutation.
    rewrite (Permutation_middle acc l x). reflexivity.
Qed.

Lemma fold_insert_sorted l acc :
  StronglySorted (precedes cmp) acc ->
  StronglySorted (precedes cmp) (fold_left (fun acc x => insert_by cmp x acc) l acc).
Proof.
  revert acc. induction l as [|x l IH]; intros acc Hacc; simpl; [exact Hacc|].
  apply IH. now apply insert_by_sorted.
Qed.

Lemma Array_sort_Permutation l : Array_sort cmp l ≡ₚ l.
Proof. unfold Array_sort. now rewrite fold_insert_Permutation. Qed.

Lemma Array_sort_sorted l : StronglySorted (precedes cmp) (Array_sort cmp l).
Proof. apply fold_insert_sorted. constructor. Qed.

End Sorting.

Lemma StronglySorted_lookup {A} (R : A -> A -> Prop) (l : list A) :
  StronglySorted R l ->
  forall i j a b, (i < j)%nat -> l !! i = Some a -> l !! j = Some b -> R a b.
Proof.
  induction 1 as [|x l Hs IH Hx]; intros i j a b Hij Ha Hb.
  - discriminate.
  - destruct j as [|j]; [lia|]. simpl in Hb. destruct i as [|i]; simpl in Ha.
    + injection Ha as <-. rewrite Forall_forall in Hx. apply Hx.
      eapply list_elem_of_lookup_2; eauto.
    + eapply IH; [|eassumption..]. lia.
Qed.

Lemma newest_first_total a b : newest_first a b <= 0 \/ newest_first b a <= 0.
Proof.
  unfold newest_first. rewrite (compareVersions_swap (version a) (version b)). lia.
Qed.

Lemma newest_first_trans a b c :
  newest_first a b <= 0 -> newest_first b c <= 0 -> newest_first a c <= 0.
Proof. unfold newest_first. intros H1 H2. eapply compareVersions_trans; eauto. Qed.

Lemma sorted_desc_sort vs : sorted_desc (map version (Array_sort newest_first vs)).
Proof.
  intros i j a b Hij Ha Hb.
  rewrite list_lookup_fmap in Ha, Hb.
  destruct (Array_sort newest_first vs !! i) as [x|] eqn:Hx; [|discriminate].
  destruct (Array_sort newest_first vs !! j) as [y|] eqn:Hy; [|discriminate].
  injection Ha as <-. injection Hb as <-.
  pose proof (StronglySorted_lookup _ _
    (Array_sort_sorted newest_first newest_first_total newest_first_trans vs)
    i j x y Hij Hx Hy) as H.
  unfold precedes, newest_first in H. rewrite compareVersions_swap in H. lia.
Qed.

(** *** Running programs *)

Lemma run_bind {A B} (m : Prog A) (f : A -> Prog B) w :
  run (bind m f) w = let '(a, w') := run m w in run (f a) w'.
Proof.
  revert w. induction m as [a|X o k IH]; intros w; simpl; [reflexivity|].
  destruct (perform o w) as [x w']. apply IH.
Qed.

Lemma verifyToken_env token w : env (snd (run (verifyToken token) w)) = env w.
Proof.
  unfold verifyToken. destruct (Str.is_empty token); [reflexivity|]. simpl.
  destruct (match ADMIN_TOKEN (env w) with
            | Some a => negb (Str.is_empty a) && String.eqb token a
            | None => false end); [reflexivity|].
  simpl. destruct (TOKENS (env w) !! token) as [uid|]; [|reflexivity].
  destruct (Str.is_empty uid); [reflexivity|]. simpl.
  destruct (USERS (env w) !! uid); reflexivity.
Qed.

(** ** Publishing *)

(** *** The publish handler, stage by stage *)

Lemma run_publish_commit request user tarball packageName packageVersion checksum
    metadata w :
  run (publish_commit request user tarball packageName packageVersion checksum
         metadata) w =
  (jsonResponse
     (PublishedJson ("Published " +:+ packageName +:+ "@" +:+ packageVersion)
        checksum (download_path packageName packageVersion)) 201,
   with_env (tick (tick w))
     (grant user packageName
        (put_package ("pkg:" +:+ packageName)
           (committed request tarball packageVersion checksum
              (clock w (ticks w)) (clock w (S (ticks w))) metadata)
           (put_tarball (tarball_key packageName packageVersion)
              (tarball_object user tarball checksum (clock w (ticks w)))
              (env w))))).
Proof.
  unfold publish_commit, grant. simpl.
  destruct (Array_includes (User.packages user) packageName); reflexivity.
Qed.

Lemma run_publish_store request user tarball packageName packageVersion w :
  run (publish_store request user tarball packageName packageVersion) w =
  match PACKAGES (env w) !! ("pkg:" +:+ packageName) with
  | Some metadata =>
      if existsb (has_version packageVersion) (versions metadata)
      then (errorResponse ("Version " +:+ packageVersion +:+ " already exists") 409, w)
      else run (publish_commit request user tarball packageName packageVersion
                  (sha256_hex w tarball) metadata) w
  | None =>
      run (publish_commit request user tarball packageName packageVersion
             (sha256_hex w tarball)
             (new_package packageName
                (or_empty (headers request !! "X-Package-Description")) user
                (clock w (ticks w)) (clock w (S (ticks w)))))
          (tick (tick w))
  end.
Proof.
  unfold publish_store, hashData. simpl.
  destruct (PACKAGES (env w) !! ("pkg:" +:+ packageName)) as [metadata|]; simpl.
  - destruct (existsb (has_version packageVersion) (versions metadata)); reflexivity.
  - reflexivity.
Qed.

Lemma authenticated_world_env request w : env (authenticated_world request w) = env w.
Proof.
  unfold authenticated_world. destruct (bearer request); [|reflexivity].
  apply verifyToken_env.
Qed.

Lemma run_publish_accepted request w user packageName packageVersion :
  accepted request w user packageName packageVersion ->
  run (handlePublishPackage request) w =
  run (publish_store request user (body request) packageName packageVersion)
      (authenticated_world request w).
Proof.
  intros (token & Hb & Hu & Hbody & Hn & Hv & Vn & Vv).
  unfold handlePublishPackage, authenticated_world. rewrite Hb, run_bind.
  destruct (run (verifyToken token) w) as [u w0]. simpl in Hu. subst u. simpl.
  destruct (body request) as [|b bs] eqn:Eb; [now destruct Hbody|]. simpl.
  rewrite Hn, Hv, Vn, Vv. simpl. rewrite <- Eb. reflexivity.
Qed.

(** A publish that does not reach the store answers 401 or 400 and writes
    nothing. *)
Lemma run_publish_rejected request w :
  (forall user packageName packageVersion,
     ~ accepted request w user packageName packageVersion) ->
  let '(resp, w') := run (handlePublishPackage request) w in
  (status resp = 401 \/ status resp = 400) /\ env w' = env w.
Proof.
  intros Hno. unfold handlePublishPackage.
  destruct (bearer request) as [token|] eqn:Hb; [|simpl; auto].
  rewrite run_bind. pose proof (verifyToken_env token w) as He.
  destruct (run (verifyToken token) w) as [u w0] eqn:Hu. simpl in He.
  destruct u as [user|]; [|simpl; auto]. simpl.
  destruct (body request) as [|b bs] eqn:Eb; [simpl; auto|]. simpl.
  destruct (non_empty (headers request !! "X-Package-Name")) as [n|] eqn:Hn;
    [|simpl; auto].
  destruct (non_empty (headers request !! "X-Package-Version")) as [v|] eqn:Hv;
    [|simpl; auto].
  destruct (valid_name n) eqn:Vn; [|simpl; auto].
  destruct (valid_version v) eqn:Vv; [|simpl; auto].
  exfalso. apply (Hno user n v). exists token. rewrite Hu, Eb.
  repeat split; auto; discriminate.
Qed.

Lemma accepted_dec request w :
  (exists user packageName packageVersion,
     accepted request w user packageName packageVersion) \/
  (forall user packageName packageVersion,
     ~ accepted request w user packageName packageVersion).
Proof.
  unfold accepted.
  destruct (bearer request) as [token|] eqn:Hb;
    [|right; intros ? ? ? (t & H & _); discriminate].
  destruct (run (verifyToken token) w) as [[user|] w0] eqn:Hu;
    [|right; intros ? ? ? (t & [= <-] & H & _); rewrite Hu in H; discriminate].
  destruct (body request) as [|b bs] eqn:Eb;
    [right; intros ? ? ? (t & _ & _ & H & _); now destruct H|].
  destruct (non_empty (headers request !! "X-Package-Name")) as [n|] eqn:Hn;
    [|right; intros ? ? ? (t & _ & _ & _ & H & _); discriminate].
  destruct (non_empty (headers request !! "X-Package-Version")) as [v|] eqn:Hv;
    [|right; intros ? ? ? (t & _ & _ & _ & _ & H & _); discriminate].
  destruct (valid_name n) eqn:Vn;
    [|right; intros ? ? ? (t & _ & _ & _ & [= <-] & _ & H & _); congruence].
  destruct (valid_version v) eqn:Vv;
    [|right; intros ? ? ? (t & _ & _ & _ & _ & [= <-] & _ & H); congruence].
  left. exists user, n, v, token. rewrite Hu. repeat split; auto; discriminate.
Qed.

Lemma perform_oracles {X} (o : Op X) w :
  sha256_hex (snd (perform o w)) = sha256_hex w /\
  clock (snd (perform o w)) = clock w /\
  (ticks w <= ticks (snd (perform o w)))%nat.
Proof. destruct o; simpl; repeat split; lia. Qed.

Lemma run_oracles {A} (p : Prog A) w :
  sha256_hex (snd (run p w)) = sha256_hex w /\
  clock (snd (run p w)) = clock w /\
  (ticks w <= ticks (snd (run p w)))%nat.
Proof.
  revert w. induction p as [a|X o k IH]; intros w; simpl; [repeat split; lia|].
  destruct (perform_oracles o w) as (Hs & Hc & Ht).
  destruct (perform o w) as [x w']. simpl in *.
  destruct (IH x w') as (Hs' & Hc' & Ht'). repeat split; [congruence..|lia].
Qed.

Lemma authenticated_world_oracles request w :
  sha256_hex (authenticated_world request w) = sha256_hex w /\
  clock (authenticated_world request w) = clock w /\
  (ticks w <= ticks (authenticated_world request w))%nat.
Proof.
  unfold authenticated_world. destruct (bearer request) as [token|]; [|auto].
  apply run_oracles.
Qed.

Lemma PACKAGES_grant user packageName e :
  PACKAGES (grant user packageName e) = PACKAGES e.
Proof. unfold grant. destruct (Array_includes _ _); reflexivity. Qed.

Lemma TARBALLS_grant user packageName e :
  TARBALLS (grant user packageName e) = TARBALLS e.
Proof. unfold grant. destruct (Array_includes _ _); reflexivity. Qed.

(** What a publish answered with 201 went through. *)
Lemma publish_201 request w resp w1 :
  run (handlePublishPackage request) w = (resp, w1) -> status resp = 201 ->
  exists user packageName packageVersion base w0,
    accepted request w user packageName packageVersion /\
    env w0 = env w /\ sha256_hex w0 = sha256_hex w /\ clock w0 = clock w /\
    (ticks w <= ticks w0)%nat /\
    ((PACKAGES (env w) !! ("pkg:" +:+ packageName) = Some base /\
      existsb (has_version packageVersion) (versions base) = false) \/
     (PACKAGES (env w) !! ("pkg:" +:+ packageName) = None /\
      exists created updated,
        base = new_package packageName
                 (or_empty (headers request !! "X-Package-Description"))
                 user created updated)) /\
    run (publish_commit request user (body request) packageName packageVersion
           (sha256_hex w (body request)) base) w0 = (resp, w1).
Proof.
  intros Hrun Hst.
  destruct (accepted_dec request w) as [(user & n & v & Hacc)|Hno].
  - rewrite (run_publish_accepted _ _ _ _ _ Hacc), run_publish_store in Hrun.
    pose proof (authenticated_world_env request w) as He.
    destruct (authenticated_world_oracles request w) as (Hs & Hc & Ht).
    rewrite He, Hs in Hrun.
    destruct (PACKAGES (env w) !! ("pkg:" +:+ n)) as [m|] eqn:Hm.
    + destruct (existsb (has_version v) (versions m)) eqn:Hex.
      * injection Hrun as <- <-. discriminate Hst.
      * exists user, n, v, m, (authenticated_world request w).
        repeat split; auto.
    + eexists user, n, v, _, (tick (tick (authenticated_world request w))).
      repeat split; [exact Hacc|exact He|exact Hs|exact Hc|simpl; lia| |exact Hrun].
      right. split; [exact Hm|]. eauto.
  - pose proof (run_publish_rejected request w Hno) as H. rewrite Hrun in H.
    destruct H as [[H|H] _]; rewrite Hst in H; discriminate.
Qed.

Lemma key_inj (a b : string) : "pkg:" +:+ a = "pkg:" +:+ b -> a = b.
Proof. intros H. injection H. auto. Qed.

Lemma find_has_version_sorted v old nv :
  existsb (has_version v) old = false -> version nv = v ->
  find (has_version v) (Array_sort newest_first (old ++ [nv])) = Some nv.
Proof.
  intros Hold Hnv.
  pose proof (Array_sort_Permutation newest_first (old ++ [nv])) as HP.
  destruct (find (has_version v) (Array_sort newest_first (old ++ [nv]))) as [x|] eqn:Hf.
  - apply find_some in Hf as [Hin Hx]. apply list_elem_of_In in Hin.
    rewrite HP in Hin. apply elem_of_app in Hin as [Hin|Hin].
    + exfalso. assert (existsb (has_version v) old = true); [|congruence].
      apply existsb_exists. exists x. split; [now apply list_elem_of_In|exact Hx].
    + apply list_elem_of_singleton in Hin. now subst.
  - exfalso. assert (Hn : has_version v nv = false).
    { apply (find_none _ _ Hf nv), list_elem_of_In. rewrite HP.
      apply elem_of_app. right. now left. }
    unfold has_version in Hn. now rewrite Hnv, String.eqb_refl in Hn.
Qed.

(** The store after a publish answered with 201. *)
Lemma publish_201_stored request w resp w1 :
  run (handlePublishPackage request) w = (resp, w1) -> status resp = 201 ->
  exists user packageName packageVersion base published updated,
    accepted request w user packageName packageVersion /\
    ((PACKAGES (env w) !! ("pkg:" +:+ packageName) = Some base /\
      existsb (has_version packageVersion) (versions base) = false) \/
     (PACKAGES (env w) !! ("pkg:" +:+ packageName) = None /\
      exists created updated0,
        base = new_package packageName
                 (or_empty (headers request !! "X-Package-Description"))
                 user created updated0)) /\
    updated = clock w (Nat.pred (ticks w1)) /\
    (ticks w < ticks w1)%nat /\
    env w1 =
      grant user packageName
        (put_package ("pkg:" +:+ packageName)
           (committed request (body request) packageVersion
              (sha256_hex w (body request)) published updated base)
           (put_tarball (tarball_key packageName packageVersion)
              (tarball_object user (body request)
                 (sha256_hex w (body request)) published)
              (env w))).
Proof.
  intros Hrun Hst.
  destruct (publish_201 _ _ _ _ Hrun Hst)
    as (user & n & v & base & w0 & Hacc & He & Hs & Hc & Ht & Hbase & Hcommit).
  rewrite run_publish_commit in Hcommit. injection Hcommit as _ <-.
  exists user, n, v, base, (clock w0 (ticks w0)), (clock w0 (S (ticks w0))).
  repeat split;
    [exact Hacc|exact Hbase|now rewrite Hc|simpl; lia|simpl; now rewrite He].
Qed.

(** Claim C3.  After a publish of (name, version) answered 201, a second
    publish of the same (name, version) that passes authentication and
    validation is answered 409 and writes nothing: the stored version
    record (version, checksum, size) and the stored tarball are those of
    the first publish. *)
Theorem republish_conflict w request1 request2 resp1 w1 user2
    packageName packageVersion :
  run (handlePublishPackage request1) w = (resp1, w1) ->
  status resp1 = 201 ->
  non_empty (headers request1 !! "X-Package-Name") = Some packageName ->
  non_empty (headers request1 !! "X-Package-Version") = Some packageVersion ->
  accepted request2 w1 user2 packageName packageVersion ->
  exists w2 metadata record blob,
    run (handlePublishPackage request2) w1 =
      (errorResponse ("Version " +:+ packageVersion +:+ " already exists") 409, w2) /\
    env w2 = env w1 /\
    PACKAGES (env w2) !! ("pkg:" +:+ packageName) = Some metadata /\
    find (has_version packageVersion) (versions metadata) = Some record /\
    version record = packageVersion /\
    checksum record = sha256_hex w (body request1) /\
    size record = Z.of_nat (length (body request1)) /\
    TARBALLS (env w2) !! tarball_key packageName packageVersion = Some blob /\
    R2.body blob = body request1 /\
    R2.checksum blob = sha256_hex w (body request1).
Proof.
  intros Hrun Hst Hn Hv Hacc2.
  destruct (publish_201_stored _ _ _ _ Hrun Hst)
    as (user & n & v & base & published & updated & Hacc & Hbase & _ & _ & Henv).
  destruct Hacc as (token & _ & _ & _ & Hn' & Hv' & _).
  rewrite Hn in Hn'. rewrite Hv in Hv'. injection Hn' as <-. injection Hv' as <-.
  set (nv := new_version request1 (body request1) packageVersion
               (sha256_hex w (body request1)) published) in *.
  assert (Hold : existsb (has_version packageVersion) (versions base) = false).
  { destruct Hbase as [[_ H]|[_ (c & u & ->)]]; [exact H|reflexivity]. }
  pose proof (find_has_version_sorted packageVersion (versions base) nv Hold eq_refl)
    as Hfind.
  assert (Hpk : PACKAGES (env w1) !! ("pkg:" +:+ packageName) =
                Some (committed request1 (body request1) packageVersion
                        (sha256_hex w (body request1)) published updated base)).
  { rewrite Henv, PACKAGES_grant. simpl. apply lookup_insert_eq. }
  assert (Htb : TARBALLS (env w1) !! tarball_key packageName packageVersion =
                Some (tarball_object user (body request1)
                        (sha256_hex w (body request1)) published)).
  { rewrite Henv, TARBALLS_grant. simpl. apply lookup_insert_eq. }
  rewrite (run_publish_accepted _ _ _ _ _ Hacc2), run_publish_store.
  rewrite (authenticated_world_env request2 w1), Hpk.
  assert (Hex : existsb (has_version packageVersion)
                  (versions (committed request1 (body request1) packageVersion
                     (sha256_hex w (body request1)) published updated base)) = true).
  { apply existsb_exists. exists nv. split.
    - eapply find_some; exact Hfind.
    - unfold has_version. apply String.eqb_refl. }
  rewrite Hex.
  eexists _, _, nv, _. split; [reflexivity|].
  rewrite (authenticated_world_env request2 w1).
  repeat split; first [exact Hpk|exact Hfind|exact Htb|reflexivity].
Qed.


(** Every answer of the publish handler is one of these four. *)
Lemma publish_statuses request w :
  let resp := fst (run (handlePublishPackage request) w) in
  status resp = 201 \/ status resp = 400 \/ status resp = 401 \/ status resp = 409.
Proof.
  destruct (accepted_dec request w) as [(user & n & v & Hacc)|Hno].
  - rewrite (run_publish_accepted _ _ _ _ _ Hacc), run_publish_store.
    destruct (PACKAGES _ !! _) as [m|].
    + destruct (existsb _ _); [simpl; auto|]. rewrite run_publish_commit. simpl. auto.
    + rewrite run_publish_commit. simpl. auto.
  - pose proof (run_publish_rejected request w Hno) as H.
    destruct (run (handlePublishPackage request) w) as [resp w']. simpl.
    destruct H as [[H|H] _]; auto.
Qed.

(** Claim C1, evaluated on the code.  The claim asks a publish to an
    existing package by a caller who neither owns it nor is the admin to
    fail with 403 before any write.  [handlePublishPackage] makes no
    ownership check: on the small registry Bob, who does not own json-lib
    and is not the admin, publishes json-lib 2.0.0 and is answered 201;
    the version and its tarball are stored.  [handleYankVersion], which
    does make the check, answers the same caller 403. *)
Theorem publish_by_non_owner_accepted :
  let request := Demo.publish "tok-bob" "json-lib" "2.0.0" "xyz" in
  let '(resp, w) := run (handlePublishPackage request) Demo.world in
  PACKAGES Demo.registry !! "pkg:json-lib" = Some Demo.json_lib /\
  fst (run (verifyToken "tok-bob") Demo.world) = Some Demo.bob /\
  User.id Demo.bob <> "admin" /\
  Array_includes (User.packages Demo.bob) "json-lib" = false /\
  status resp = 201 /\
  (versions <$> PACKAGES (env w) !! "pkg:json-lib") =
    Some [new_version request (Demo.bytes "xyz") "2.0.0" "xyz" "2024-05-01T10:00:00Z";
          Demo.json_lib_1_0_0] /\
  (R2.body <$> TARBALLS (env w) !! "json-lib/2.0.0.tar.gz") = Some (Demo.bytes "xyz") /\
  status (fst (run (handleYankVersion "json-lib" "1.0.0" true
                      (Demo.authorized "tok-bob")) Demo.world)) = 403.
Proof. vm_compute. repeat split; discriminate. Qed.

(** ** Yanking *)

Lemma run_handleYankVersion pkg ver yank request w :
  run (handleYankVersion pkg ver yank request) w =
  match bearer request with
  | None => (errorResponse "Authentication required" 401, w)
  | Some token =>
      let '(user, w0) := run (verifyToken token) w in
      match user with
      | None => (errorResponse "Invalid authentication token" 401, w0)
      | Some user =>
          match PACKAGES (env w0) !! ("pkg:" +:+ pkg) with
          | None => (errorResponse ("Package '" +:+ pkg +:+ "' not found") 404, w0)
          | Some metadata =>
              match find (has_version ver) (versions metadata) with
              | None =>
                  (errorResponse ("Version '" +:+ ver +:+ "' not found") 404, w0)
              | Some _ =>
                  if may_modify user pkg
                  then (jsonResponse
                          (MessageJson
                             ((if yank then "Yanked" else "Unyanked") +:+ " "
                              +:+ pkg +:+ "@" +:+ ver)) 200,
                        with_env (tick w0)
                          (put_package ("pkg:" +:+ pkg)
                             (set_updated_at (clock w0 (ticks w0))
                                (set_versions
                                   (update_first (has_version ver)
                                      (set_yanked yank) (versions metadata))
                                   metadata))
                             (env w0)))
                  else (errorResponse "Not authorized to modify this package" 403, w0)
              end
          end
      end
  end.
Proof.
  unfold handleYankVersion, may_modify.
  destruct (bearer request) as [token|]; [|reflexivity].
  rewrite run_bind. destruct (run (verifyToken token) w) as [[user|] w0]; [|reflexivity].
  simpl. destruct (PACKAGES (env w0) !! ("pkg:" +:+ pkg)) as [m|]; [|reflexivity].
  destruct (find (has_version ver) (versions m)); [|reflexivity].
  destruct (String.eqb (User.id user) "admin"); simpl; [reflexivity|].
  destruct (Array_includes (User.packages user) pkg); reflexivity.
Qed.

(** What a yank or unyank answered with 200 did. *)
Lemma yank_200 pkg ver yank request w resp w1 :
  run (handleYankVersion pkg ver yank request) w = (resp, w1) ->
  status resp = 200 ->
  exists metadata found,
    PACKAGES (env w) !! ("pkg:" +:+ pkg) = Some metadata /\
    find (has_version ver) (versions metadata) = Some found /\
    env w1 =
      put_package ("pkg:" +:+ pkg)
        (set_updated_at (clock w (Nat.pred (ticks w1)))
           (set_versions
              (update_first (has_version ver) (set_yanked yank)
                 (versions metadata))
              metadata))
        (env w).
Proof.
  rewrite run_handleYankVersion. intros Hrun Hst.
  destruct (bearer request) as [token|];
    [|injection Hrun as <- <-; discriminate Hst].
  pose proof (verifyToken_env token w) as He.
  destruct (run_oracles (verifyToken token) w) as (_ & Hc & _).
  destruct (run (verifyToken token) w) as [[user|] w0];
    [|injection Hrun as <- <-; discriminate Hst].
  simpl in He, Hc. rewrite He in Hrun.
  destruct (PACKAGES (env w) !! ("pkg:" +:+ pkg)) as [m|];
    [|injection Hrun as <- <-; discriminate Hst].
  destruct (find (has_version ver) (versions m)) as [found|] eqn:Hf;
    [|injection Hrun as <- <-; discriminate Hst].
  destruct (may_modify user pkg); [|injection Hrun as <- <-; discriminate Hst].
  injection Hrun as _ <-. exists m, found. simpl. rewrite Hc. repeat split; exact Hf.
Qed.

Lemma update_first_Forall2 {A} (p : A -> bool) (f : A -> A) (l : list A) :
  Forall2 (fun x y => y = x \/ (p x = true /\ y = f x)) l (update_first p f l).
Proof.
  induction l as [|x l IH]; simpl; [constructor|].
  destruct (p x) eqn:Hp.
  - constructor; [auto|]. clear. induction l; constructor; auto.
  - constructor; auto.
Qed.

Lemma find_update_first {A} (p : A -> bool) (f : A -> A) (l : list A) x :
  find p l = Some x -> p (f x) = true -> find p (update_first p f l) = Some (f x).
Proof.
  induction l as [|y l IH]; simpl; [discriminate|].
  destruct (p y) eqn:Hp.
  - intros [= ->] Hf. simpl. now rewrite Hf.
  - intros Hx Hf. simpl. rewrite Hp. now apply IH.
Qed.

Lemma map_version_update_first ver yank vs :
  map version (update_first (has_version ver) (set_yanked yank) vs)
  = map version vs.
Proof.
  induction vs as [|v vs IH]; simpl; [reflexivity|].
  destruct (has_version ver v); simpl; [reflexivity|]. now rewrite IH.
Qed.

Lemma same_but_package_put key m e : same_but_package key e (put_package key m e).
Proof.
  repeat split. intros key' Hne. simpl. now apply lookup_insert_ne.
Qed.

(** Claim C7, amended.  An unyank answered 200 sets [yanked] of the
    record found for the version to false and sets [updated_at] of the
    package to the time of the request; every other field of the package
    record and of its version records, every other package, the users,
    the tokens and the tarballs stay as they were. *)
Theorem unyank_frame pkg ver request w resp w1 :
  run (handleYankVersion pkg ver false request) w = (resp, w1) ->
  status resp = 200 ->
  exists metadata metadata' record,
    PACKAGES (env w) !! ("pkg:" +:+ pkg) = Some metadata /\
    PACKAGES (env w1) !! ("pkg:" +:+ pkg) = Some metadata' /\
    same_but_package ("pkg:" +:+ pkg) (env w) (env w1) /\
    same_descriptive metadata metadata' /\
    updated_at metadata' = clock w (Nat.pred (ticks w1)) /\
    find (has_version ver) (versions metadata') = Some record /\
    yanked record = false /\
    Forall2 (fun v v' =>
               v' = v \/
               (version v = ver /\ yanked v' = false /\
                same_but_yanked v v'))
            (versions metadata) (versions metadata').
Proof.
  intros Hrun Hst.
  destruct (yank_200 _ _ _ _ _ _ _ Hrun Hst) as (m & found & Hm & Hf & He).
  eexists m, _, (set_yanked false found). split; [exact Hm|].
  split; [rewrite He; simpl; apply lookup_insert_eq|].
  split; [rewrite He; apply same_but_package_put|].
  split; [repeat split|]. split; [reflexivity|]. simpl.
  split; [apply find_update_first; [exact Hf|]|].
  { apply find_some in Hf as [_ Hf]. exact Hf. }
  split; [reflexivity|].
  eapply Forall2_impl; [apply update_first_Forall2|].
  intros v v' [->|[Hp ->]]; [auto|]. right. split; [|repeat split].
  unfold has_version in Hp. now apply String.eqb_eq in Hp.
Qed.

(** ** Searching and listing *)

(** *** Substrings *)





(** *** Listings *)



Lemma run_search_loop q keys results w :
  run (search_loop q keys results) w =
  (results ++ List.filter (matches q) (omap (fun key => PACKAGES (env w) !! key) keys), w).
Proof.
  revert results. induction keys as [|key keys IH]; intros results; simpl.
  - now rewrite app_nil_r.
  - destruct (PACKAGES (env w) !! key) as [m|]; simpl; [|apply IH].
    destruct (matches q m); rewrite IH; [|reflexivity].
    now rewrite <- app_assoc.
Qed.

Lemma run_handleSearchPackages query w :
  run (handleSearchPackages query) w =
  (jsonResponse
     (SearchJson (List.filter (matches (Str.toLowerCase query)) (stored_records w)))
     200, w).
Proof.
  unfold handleSearchPackages. simpl. rewrite run_bind, run_search_loop. reflexivity.
Qed.

Lemma run_list_loop keys packages w :
  run (list_loop keys packages) w =
  (packages ++ map summary_of (omap (fun key => PACKAGES (env w) !! key) keys), w).
Proof.
  revert packages. induction keys as [|key keys IH]; intros packages; simpl.
  - now rewrite app_nil_r.
  - destruct (PACKAGES (env w) !! key) as [m|]; simpl; [|apply IH].
    rewrite IH. now rewrite <- app_assoc.
Qed.

Lemma run_handleListPackages w :
  run handleListPackages w =
  (jsonResponse (ListJson (map summary_of (stored_records w))) 200, w).
Proof.
  unfold handleListPackages. simpl. rewrite run_bind, run_list_loop. reflexivity.
Qed.


(** *** Downloads and the latest version *)

Lemma run_download_yanked name ver w metadata record :
  PACKAGES (env w) !! ("pkg:" +:+ name) = Some metadata ->
  find (has_version ver) (versions metadata) = Some record ->
  yanked record = true ->
  run (handleDownloadPackage name ver) w =
  (errorResponse ("Version '" +:+ ver +:+ "' has been yanked") 410, w).
Proof.
  intros Hm Hf Hy. unfold handleDownloadPackage. simpl. rewrite Hm, Hf, Hy.
  reflexivity.
Qed.

Lemma find_first {A} (p : A -> bool) (l : list A) :
  match find p l with
  | Some x =>
      exists pre post,
        l = pre ++ x :: post /\ Forall (fun y => p y = false) pre /\ p x = true
  | None => Forall (fun y => p y = false) l
  end.
Proof.
  induction l as [|y l IH]; simpl; [constructor|].
  destruct (p y) eqn:Hp.
  - exists [], l. repeat split; [constructor|exact Hp].
  - destruct (find p l) as [x|].
    + destruct IH as (pre & post & -> & Hpre & Hx).
      exists (y :: pre), post. repeat split; [constructor; assumption|exact Hx].
    + constructor; assumption.
Qed.

(** The latest version of a listing is the first record that is not
    yanked; when every record is yanked there is none. *)
Lemma latest_of_skips_yanked vs :
  (Forall (fun v => yanked v = true) vs /\ latest_of vs = "none") \/
  (exists pre v post,
     vs = pre ++ v :: post /\ Forall (fun u => yanked u = true) pre /\
     yanked v = false /\
     latest_of vs = if Str.is_empty (version v) then "none" else version v).
Proof.
  unfold latest_of.
  pose proof (find_first (fun v => negb (yanked v)) vs) as H.
  destruct (find (fun v => negb (yanked v)) vs) as [v|].
  - right. destruct H as (pre & post & -> & Hpre & Hv). exists pre, v, post.
    repeat split.
    + eapply Forall_impl; [exact Hpre|]. intros u Hu. simpl in Hu. now destruct (yanked u).
    + simpl in Hv. now destruct (yanked v).
  - left. split; [|reflexivity].
    eapply Forall_impl; [exact H|]. intros u Hu. simpl in Hu. now destruct (yanked u).
Qed.

Lemma find_has_version_NoDup vs record :
  NoDup (map version vs) -> record ∈ vs ->
  find (has_version (version record)) vs = Some record.
Proof.
  induction vs as [|v vs IH]; intros Hnd Hin; [now apply not_elem_of_nil in Hin|].
  simpl in Hnd. apply NoDup_cons in Hnd as [Hv Hnd]. cbn [find].
  apply elem_of_cons in Hin as [->|Hin].
  - unfold has_version. now rewrite String.eqb_refl.
  - unfold has_version at 1. destruct (String.eqb_spec (version v) (version record)) as [E|_].
    + exfalso. apply Hv. rewrite E. apply list_elem_of_fmap. eauto.
    + now apply IH.
Qed.

(** Claim C6.  A download of a version whose record is yanked is answered
    410 and leaves the world as it is; this holds for every yanked record
    of a package whose version strings are distinct.  A yank answered 200
    keeps every record of the package and leaves the yanked one marked,
    after which the download is answered 410.  The listing reports, for
    every stored package, the first record that is not yanked as the
    latest version, and "none" when every record is yanked. *)
Theorem yanked_version_gone :
  (forall w pkg ver metadata record,
     PACKAGES (env w) !! ("pkg:" +:+ pkg) = Some metadata ->
     find (has_version ver) (versions metadata) = Some record ->
     yanked record = true ->
     run (handleDownloadPackage pkg ver) w =
       (errorResponse ("Version '" +:+ ver +:+ "' has been yanked") 410, w)) /\
  (forall w pkg metadata record,
     PACKAGES (env w) !! ("pkg:" +:+ pkg) = Some metadata ->
     NoDup (map version (versions metadata)) ->
     record ∈ versions metadata ->
     yanked record = true ->
     run (handleDownloadPackage pkg (version record)) w =
       (errorResponse ("Version '" +:+ version record +:+ "' has been yanked") 410,
        w)) /\
  (forall w pkg ver request resp w1,
     run (handleYankVersion pkg ver true request) w = (resp, w1) ->
     status resp = 200 ->
     exists metadata metadata' record,
       PACKAGES (env w) !! ("pkg:" +:+ pkg) = Some metadata /\
       PACKAGES (env w1) !! ("pkg:" +:+ pkg) = Some metadata' /\
       map version (versions metadata') = map version (versions metadata) /\
       find (has_version ver) (versions metadata') = Some record /\
       yanked record = true /\
       status (fst (run (handleDownloadPackage pkg ver) w1)) = 410) /\
  (forall w,
     run handleListPackages w =
       (jsonResponse (ListJson (map summary_of (stored_records w))) 200, w)) /\
  (forall metadata,
     let vs := versions metadata in
     (Forall (fun v => yanked v = true) vs /\ latest (summary_of metadata) = "none") \/
     (exists pre v post,
        vs = pre ++ v :: post /\ Forall (fun u => yanked u = true) pre /\
        yanked v = false /\
        latest (summary_of metadata) =
          if Str.is_empty (version v) then "none" else version v)).
Proof.
  split; [|split; [|split; [|split]]].
  - intros w pkg ver metadata record. apply run_download_yanked.
  - intros w pkg metadata record Hm Hnd Hin Hy.
    apply (run_download_yanked pkg (version record) w metadata record Hm);
      [now apply find_has_version_NoDup|exact Hy].
  - intros w pkg ver request resp w1 Hrun Hst.
    destruct (yank_200 _ _ _ _ _ _ _ Hrun Hst) as (m & found & Hm & Hf & He).
    assert (Hf' : find (has_version ver)
                    (update_first (has_version ver) (set_yanked true) (versions m))
                  = Some (set_yanked true found)).
    { apply find_update_first; [exact Hf|]. now apply find_some in Hf as [_ Hf]. }
    assert (Hpk : PACKAGES (env w1) !! ("pkg:" +:+ pkg) =
                  Some (set_updated_at (clock w (Nat.pred (ticks w1)))
                          (set_versions
                             (update_first (has_version ver) (set_yanked true)
                                (versions m)) m))).
    { rewrite He. simpl. apply lookup_insert_eq. }
    eexists m, _, (set_yanked true found). split; [exact Hm|].
    split; [exact Hpk|].
    split; [apply map_version_update_first|]. split; [exact Hf'|].
    split; [reflexivity|].
    now rewrite (run_download_yanked pkg ver w1 _ _ Hpk Hf' eq_refl).
  - apply run_handleListPackages.
  - intros metadata. apply latest_of_skips_yanked.
Qed.

(** *** What each request does to the versions of one package *)

Lemma stored_versions_env w w1 pkg :
  env w1 = env w -> stored_versions w1 pkg = stored_versions w pkg.
Proof. unfold stored_versions. now intros ->. Qed.

Lemma stored_versions_put_other w e pkg key m :
  e = put_package key m (env w) -> key <> "pkg:" +:+ pkg ->
  match PACKAGES e !! ("pkg:" +:+ pkg) with
  | Some metadata => map version (versions metadata)
  | None => []
  end = stored_versions w pkg.
Proof.
  intros -> Hne. unfold stored_versions. simpl. now rewrite lookup_insert_ne.
Qed.

Lemma run_download_world name ver w : snd (run (handleDownloadPackage name ver) w) = w.
Proof.
  unfold handleDownloadPackage. simpl.
  destruct (PACKAGES (env w) !! ("pkg:" +:+ name)) as [m|]; [|reflexivity].
  destruct (find (has_version ver) (versions m)) as [v|]; [|reflexivity].
  destruct (yanked v); [reflexivity|]. simpl.
  destruct (TARBALLS (env w) !! tarball_key name ver); reflexivity.
Qed.

Lemma run_handleGetPackage name w :
  run (handleGetPackage name) w =
  match PACKAGES (env w) !! ("pkg:" +:+ name) with
  | None => (errorResponse ("Package '" +:+ name +:+ "' not found") 404, w)
  | Some metadata =>
      let listed :=
        set_versions
          (map (fun v => set_download_url (download_path name (version v)) v)
               (versions metadata)) metadata in
      (jsonResponse (PackageJson listed) 200,
       with_env w (put_package ("pkg:" +:+ name)
                     (set_downloads (downloads metadata + 1) listed) (env w)))
  end.
Proof.
  unfold handleGetPackage. simpl.
  destruct (PACKAGES (env w) !! ("pkg:" +:+ name)); reflexivity.
Qed.

Lemma map_version_download_url name vs :
  map version (map (fun v => set_download_url (download_path name (version v)) v) vs)
  = map version vs.
Proof. induction vs as [|v vs IH]; simpl; [reflexivity|]. now rewrite IH. Qed.

(** A request that does not publish a version of [pkg] leaves its stored
    version strings as they are. *)
Lemma unpublished_versions c w resp w1 pkg :
  run (handle c) w = (resp, w1) -> published pkg (c, resp) = false ->
  stored_versions w1 pkg = stored_versions w pkg.
Proof.
  intros Hrun Hpub. destruct c as [|request|n|n v|n v request|n v request|q]; cbn [handle] in Hrun.
  - rewrite run_handleListPackages in Hrun. now injection Hrun as _ <-.
  - destruct (accepted_dec request w) as [(user & n & v & Hacc)|Hno].
    + pose proof Hacc as (token & _ & _ & _ & Hn & _).
      rewrite (run_publish_accepted _ _ _ _ _ Hacc), run_publish_store in Hrun.
      pose proof (authenticated_world_env request w) as He. rewrite He in Hrun.
      simpl in Hpub. rewrite Hn in Hpub.
      assert (Hcommit : forall base w0,
        env w0 = env w ->
        run (publish_commit request user (body request) n v
               (sha256_hex (authenticated_world request w) (body request)) base) w0
          = (resp, w1) ->
        stored_versions w1 pkg = stored_versions w pkg).
      { intros base w0 He0 Hc. rewrite run_publish_commit in Hc.
        injection Hc as <- <-. simpl in Hpub.
        unfold stored_versions at 1. simpl. rewrite PACKAGES_grant, He0. simpl.
        rewrite lookup_insert_ne; [reflexivity|].
        intros Heq. apply key_inj in Heq. subst n.
        now rewrite String.eqb_refl in Hpub. }
      destruct (PACKAGES (env w) !! ("pkg:" +:+ n)) as [m|].
      * destruct (existsb (has_version v) (versions m)).
        -- injection Hrun as _ <-. now apply stored_versions_env.
        -- eapply Hcommit; [|exact Hrun]. exact He.
      * eapply Hcommit; [|exact Hrun]. simpl. exact He.
    + pose proof (run_publish_rejected request w Hno) as H. rewrite Hrun in H.
      destruct H as [_ H]. now apply stored_versions_env.
  - rewrite run_handleGetPackage in Hrun.
    destruct (PACKAGES (env w) !! ("pkg:" +:+ n)) as [m|] eqn:Hm.
    + injection Hrun as _ <-. unfold stored_versions. simpl.
      destruct (decide (n = pkg)) as [->|Hne].
      * rewrite lookup_insert_eq, Hm. simpl. apply map_version_download_url.
      * rewrite lookup_insert_ne; [reflexivity|]. intros H. now apply key_inj in H.
    + now injection Hrun as _ <-.
  - pose proof (run_download_world n v w) as H. rewrite Hrun in H. simpl in H.
    now subst.
  - rewrite run_handleYankVersion in Hrun.
    destruct (bearer request) as [token|]; [|now injection Hrun as _ <-].
    pose proof (verifyToken_env token w) as He.
    destruct (run (verifyToken token) w) as [[user|] w0]; simpl in He;
      [|injection Hrun as _ <-; now apply stored_versions_env].
    destruct (PACKAGES (env w0) !! ("pkg:" +:+ n)) as [m|] eqn:Hm;
      [|injection Hrun as _ <-; now apply stored_versions_env].
    destruct (find (has_version v) (versions m));
      [|injection Hrun as _ <-; now apply stored_versions_env].
    destruct (may_modify user n);
      [|injection Hrun as _ <-; now apply stored_versions_env].
    injection Hrun as _ <-. unfold stored_versions. simpl. rewrite <- He.
    destruct (decide (n = pkg)) as [->|Hne].
    + rewrite lookup_insert_eq, Hm. simpl. apply map_version_update_first.
    + rewrite lookup_insert_ne; [reflexivity|]. intros H. now apply key_inj in H.
  - rewrite run_handleYankVersion in Hrun.
    destruct (bearer request) as [token|]; [|now injection Hrun as _ <-].
    pose proof (verifyToken_env token w) as He.
    destruct (run (verifyToken token) w) as [[user|] w0]; simpl in He;
      [|injection Hrun as _ <-; now apply stored_versions_env].
    destruct (PACKAGES (env w0) !! ("pkg:" +:+ n)) as [m|] eqn:Hm;
      [|injection Hrun as _ <-; now apply stored_versions_env].
    destruct (find (has_version v) (versions m));
      [|injection Hrun as _ <-; now apply stored_versions_env].
    destruct (may_modify user n);
      [|injection Hrun as _ <-; now apply stored_versions_env].
    injection Hrun as _ <-. unfold stored_versions. simpl. rewrite <- He.
    destruct (decide (n = pkg)) as [->|Hne].
    + rewrite lookup_insert_eq, Hm. simpl. apply map_version_update_first.
    + rewrite lookup_insert_ne; [reflexivity|]. intros H. now apply key_inj in H.
  - rewrite run_handleSearchPackages in Hrun. now injection Hrun as _ <-.
Qed.

(** ** Sequences of requests *)

Lemma existsb_has_version_false ver vs :
  existsb (has_version ver) vs = false -> ver ∉ map version vs.
Proof.
  intros H Hin. apply list_elem_of_fmap in Hin as (v & -> & Hv).
  assert (existsb (has_version (version v)) vs = true); [|congruence].
  apply existsb_exists. exists v. split; [now apply list_elem_of_In|].
  unfold has_version. apply String.eqb_refl.
Qed.


(** A publish answered with 201 adds exactly its version to the stored
    versions of the package and leaves them sorted. *)
Lemma publish_201_versions request w resp w1 :
  run (handlePublishPackage request) w = (resp, w1) -> status resp = 201 ->
  exists user pkg ver,
    accepted request w user pkg ver /\
    (ver ∉ stored_versions w pkg) /\
    stored_versions w1 pkg ≡ₚ ver :: stored_versions w pkg /\
    sorted_desc (stored_versions w1 pkg) /\
    (exists metadata,
       PACKAGES (env w1) !! ("pkg:" +:+ pkg) = Some metadata /\
       updated_at metadata = clock w (Nat.pred (ticks w1))) /\
    (ticks w < ticks w1)%nat.
Proof.
  intros Hrun Hst.
  destruct (publish_201_stored _ _ _ _ Hrun Hst)
    as (user & n & v & base & published & updated & Hacc & Hbase & Hup & Ht & Henv).
  exists user, n, v. split; [exact Hacc|].
  assert (Hsv : stored_versions w n = map version (versions base)).
  { unfold stored_versions.
    destruct Hbase as [[-> _]|[-> (c & u & ->)]]; reflexivity. }
  assert (Hold : existsb (has_version v) (versions base) = false).
  { destruct Hbase as [[_ H]|[_ (c & u & ->)]]; [exact H|reflexivity]. }
  assert (Hsv1 : stored_versions w1 n =
                 map version
                   (Array_sort newest_first
                      (versions base ++
                       [new_version request (body request) v
                          (sha256_hex w (body request)) published]))).
  { unfold stored_versions. rewrite Henv, PACKAGES_grant. simpl.
    now rewrite lookup_insert_eq. }
  rewrite Hsv, Hsv1. split; [now apply existsb_has_version_false|].
  split; [|split; [|split]].
  - rewrite Array_sort_Permutation, map_app. simpl.
    now rewrite <- Permutation_cons_append.
  - apply sorted_desc_sort.
  - eexists. split; [rewrite Henv, PACKAGES_grant; simpl; apply lookup_insert_eq|].
    simpl. exact Hup.
  - exact Ht.
Qed.

Lemma sorted_desc_nil : sorted_desc [].
Proof. intros i j a b _ H. discriminate H. Qed.

(** Requests served in sequence: the stored versions of a package grow by
    one with each publish of it that succeeds, stay distinct and sorted. *)
Lemma serve_versions pkg calls : forall w log w',
  serve calls w = (log, w') ->
  NoDup (stored_versions w pkg) -> sorted_desc (stored_versions w pkg) ->
  length (stored_versions w' pkg) =
    (length (stored_versions w pkg) + length (List.filter (published pkg) log))%nat /\
  NoDup (stored_versions w' pkg) /\ sorted_desc (stored_versions w' pkg).
Proof.
  induction calls as [|c calls IH]; intros w log w' Hserve Hnd Hs; simpl in Hserve.
  - injection Hserve as <- <-. simpl. repeat split; [lia|assumption..].
  - destruct (run (handle c) w) as [resp w1] eqn:Hrun.
    destruct (serve calls w1) as [log1 w2] eqn:Hrest.
    injection Hserve as <- <-. cbn [List.filter].
    destruct (published pkg (c, resp)) eqn:Hpub.
    + assert (Hc : exists request, c = PublishPackage request /\ status resp = 201).
      { destruct c; try discriminate Hpub. eexists. split; [reflexivity|].
        simpl in Hpub. apply andb_true_iff in Hpub as [H _]. lia. }
      destruct Hc as (request & -> & Hst). cbn [handle] in Hrun.
      destruct (publish_201_versions _ _ _ _ Hrun Hst)
        as (user & n & ver & Hacc & Hfresh & Hperm & Hsorted & _ & _).
      assert (n = pkg) as ->.
      { destruct Hacc as (token & _ & _ & _ & Hn & _). simpl in Hpub.
        rewrite Hn in Hpub. apply andb_true_iff in Hpub as [_ H].
        now apply String.eqb_eq in H. }
      destruct (IH w1 log1 w2 Hrest) as (Hlen & Hnd' & Hs').
      * rewrite Hperm. now constructor.
      * exact Hsorted.
      * rewrite Hlen, Hperm. simpl. repeat split; [lia|assumption..].
    + rewrite <- (unpublished_versions c w resp w1 pkg Hrun Hpub) in Hnd, Hs |- *.
      now apply IH.
Qed.

(** Claim C8.  Starting from a registry without the package, after any
    sequence of requests of which N publishes of that package were
    answered 201, with N at least 1, a get of the package returns a
    record with N versions, pairwise distinct and sorted in descending
    order of [compareVersions].  Every publish answered 201 leaves the
    stored versions sorted and sets [updated_at] to the last time it
    read the clock. *)
Theorem publishes_accumulate :
  (forall w pkg calls log w',
     PACKAGES (env w) !! ("pkg:" +:+ pkg) = None ->
     serve calls w = (log, w') ->
     (0 < length (List.filter (published pkg) log))%nat ->
     exists metadata,
       fst (run (handleGetPackage pkg) w') = jsonResponse (PackageJson metadata) 200 /\
       length (versions metadata) = length (List.filter (published pkg) log) /\
       sorted_desc (map version (versions metadata)) /\
       NoDup (map version (versions metadata))) /\
  (forall request w resp w1,
     run (handlePublishPackage request) w = (resp, w1) ->
     status resp = 201 ->
     exists pkg metadata,
       non_empty (headers request !! "X-Package-Name") = Some pkg /\
       PACKAGES (env w1) !! ("pkg:" +:+ pkg) = Some metadata /\
       sorted_desc (map version (versions metadata)) /\
       updated_at metadata = clock w (Nat.pred (ticks w1)) /\
       (ticks w < ticks w1)%nat).
Proof.
  split.
  - intros w pkg calls log w' Hnone Hserve Hpos.
    assert (H0 : stored_versions w pkg = []) by (unfold stored_versions; now rewrite Hnone).
    destruct (serve_versions pkg calls w log w' Hserve) as (Hlen & Hnd & Hs).
    { rewrite H0. constructor. }
    { rewrite H0. apply sorted_desc_nil. }
    rewrite H0 in Hlen. simpl in Hlen.
    rewrite run_handleGetPackage. unfold stored_versions in Hlen, Hnd, Hs.
    destruct (PACKAGES (env w') !! ("pkg:" +:+ pkg)) as [m|]; [|simpl in Hlen; lia].
    eexists. split; [reflexivity|]. simpl.
    rewrite map_version_download_url, length_map.
    rewrite length_map in Hlen. auto.
  - intros request w resp w1 Hrun Hst.
    destruct (publish_201_versions _ _ _ _ Hrun Hst)
      as (user & n & ver & Hacc & _ & _ & Hsorted & (m & Hm & Hup) & Ht).
    exists n, m. destruct Hacc as (token & _ & _ & _ & Hn & _).
    split; [exact Hn|]. split; [exact Hm|].
    unfold stored_versions in Hsorted. rewrite Hm in Hsorted.
    split; [exact Hsorted|]. split; [exact Hup|exact Ht].
Qed.

(** ** Requests in flight together *)

(** *** Interleavings *)





Lemma fst_run_verifyToken token w :
  fst (run (verifyToken token) w) =
  if Str.is_empty token then None
  else if match ADMIN_TOKEN (env w) with
          | Some a => negb (Str.is_empty a) && String.eqb token a
          | None => false
          end
  then Some {| User.id := "admin"; User.email := "admin@roast-lang.org";
               User.name := "Admin"; User.created_at := clock w (ticks w);
               User.packages := [] |}
  else match TOKENS (env w) !! token with
       | Some userId => if Str.is_empty userId then None else USERS (env w) !! userId
       | None => None
       end.
Proof.
  unfold verifyToken. destruct (Str.is_empty token); [reflexivity|]. simpl.
  destruct (match ADMIN_TOKEN (env w) with
            | Some a => negb (Str.is_empty a) && String.eqb token a
            | None => false end); [reflexivity|].
  simpl. destruct (TOKENS (env w) !! token) as [uid|]; [|reflexivity].
  destruct (Str.is_empty uid); [reflexivity|]. simpl.
  destruct (USERS (env w) !! uid); reflexivity.
Qed.






(** Claim C4, amended.  Two version strings accepted by the publish
    handler whose major, minor and patch components agree and whose
    pre-release suffixes contain no '.' compare equal. *)
Theorem prerelease_without_dot_ignored a b :
  valid_version a = true -> valid_version b = true ->
  (forall i, (i < 3)%nat -> component a i = component b i) ->
  has_dot (prerelease_of a) = false -> has_dot (prerelease_of b) = false ->
  compareVersions a b = 0.
Proof.
  intros Va Vb Hc Da Db.
  apply compareVersions_same_length_3; [now apply parts_length_3..|exact Hc].
Qed.

Lemma prerelease_without_dot_ignored_witness :
  compareVersions "1.0.0-alpha" "1.0.0-beta" = 0.
Proof.
  apply prerelease_without_dot_ignored; reflexivity.
Defined.

(** Claim C4 fails as stated: [split('.')] also cuts the pre-release
    suffix, and the digits that start a later segment are compared.  The
    two strings below are accepted versions with the same core 1.0.0 and
    compare as different. *)
Lemma dotted_prerelease_ordered :
  valid_version "1.0.0-alpha.1" = true /\ valid_version "1.0.0-alpha.2" = true /\
  core_of "1.0.0-alpha.1" = "1.0.0" /\ core_of "1.0.0-alpha.2" = "1.0.0" /\
  prerelease_of "1.0.0-alpha.1" = "-alpha.1" /\
  prerelease_of "1.0.0-alpha.2" = "-alpha.2" /\
  map (component "1.0.0-alpha.1") [0; 1; 2]%nat = [1; 0; 0] /\
  map (component "1.0.0-alpha.2") [0; 1; 2]%nat = [1; 0; 0] /\
  compareVersions "1.0.0-alpha.1" "1.0.0-alpha.2" = -1 /\
  compareVersions "1.0.0-rc.1" "1.0.0" = 1.
Proof. repeat split. Qed.



(** ** The statements on the small registry *)

Lemma republish_conflict_witness :
  let request1 := Demo.publish "tok-alice" "json-lib" "1.0.0" "abc" in
  let request2 := Demo.publish "tok-bob" "json-lib" "1.0.0" "xyz" in
  let w1 := snd (run (handlePublishPackage request1) Demo.empty_world) in
  exists w2 metadata record blob,
    run (handlePublishPackage request2) w1 =
      (errorResponse ("Version " +:+ "1.0.0" +:+ " already exists") 409, w2) /\
    env w2 = env w1 /\
    PACKAGES (env w2) !! ("pkg:" +:+ "json-lib") = Some metadata /\
    find (has_version "1.0.0") (versions metadata) = Some record /\
    version record = "1.0.0" /\
    checksum record = sha256_hex Demo.empty_world (body request1) /\
    size record = Z.of_nat (length (body request1)) /\
    TARBALLS (env w2) !! tarball_key "json-lib" "1.0.0" = Some blob /\
    R2.body blob = body request1 /\
    R2.checksum blob = sha256_hex Demo.empty_world (body request1).
Proof.
  intros request1 request2 w1.
  apply (republish_conflict Demo.empty_world request1 request2
           (fst (run (handlePublishPackage request1) Demo.empty_world)) w1
           Demo.bob "json-lib" "1.0.0").
  - vm_compute. reflexivity.
  - vm_compute. reflexivity.
  - vm_compute. reflexivity.
  - vm_compute. reflexivity.
  - exists "tok-bob". vm_compute. repeat split; discriminate.
Defined.


(** Claim C7 fails as stated: an unyank also sets [updated_at].  On the
    registry where json-lib 1.0.0 is yanked, the unyank is answered 200 and
    the stored [updated_at] changes with the [yanked] flag. *)
Lemma unyank_changes_updated_at :
  let '(resp, w1) :=
    run (handleYankVersion "json-lib" "1.0.0" false (Demo.authorized "tok-alice"))
        Demo.yanked_world in
  status resp = 200 /\
  (updated_at <$> PACKAGES (env Demo.yanked_world) !! "pkg:json-lib")
    = Some "2024-05-01T10:00:00Z" /\
  (updated_at <$> PACKAGES (env w1) !! "pkg:json-lib")
    = Some "2024-05-01T10:00:01Z" /\
  (map yanked <$> (versions <$> PACKAGES (env Demo.yanked_world) !! "pkg:json-lib"))
    = Some [true] /\
  (map yanked <$> (versions <$> PACKAGES (env w1) !! "pkg:json-lib"))
    = Some [false].
Proof. vm_compute. repeat split. Qed.

Lemma unyank_frame_witness :
  let request := Demo.authorized "tok-alice" in
  let w := Demo.yanked_world in
  let w1 := snd (run (handleYankVersion "json-lib" "1.0.0" false request) w) in
  exists metadata metadata' record,
    PACKAGES (env w) !! ("pkg:" +:+ "json-lib") = Some metadata /\
    PACKAGES (env w1) !! ("pkg:" +:+ "json-lib") = Some metadata' /\
    same_but_package ("pkg:" +:+ "json-lib") (env w) (env w1) /\
    same_descriptive metadata metadata' /\
    updated_at metadata' = clock w (Nat.pred (ticks w1)) /\
    find (has_version "1.0.0") (versions metadata') = Some record /\
    yanked record = false /\
    Forall2 (fun v v' =>
               v' = v \/
               (version v = "1.0.0" /\ yanked v' = false /\ same_but_yanked v v'))
            (versions metadata) (versions metadata').
Proof.
  intros request w w1.
  apply (unyank_frame "json-lib" "1.0.0" request w
           (fst (run (handleYankVersion "json-lib" "1.0.0" false request) w)) w1).
  - vm_compute. reflexivity.
  - vm_compute. reflexivity.
Defined.

Lemma yanked_version_gone_witness :
  let request := Demo.authorized "tok-alice" in
  let w1 := snd (run (handleYankVersion "json-lib" "1.0.0" true request) Demo.world) in
  exists metadata metadata' record,
    PACKAGES (env Demo.world) !! ("pkg:" +:+ "json-lib") = Some metadata /\
    PACKAGES (env w1) !! ("pkg:" +:+ "json-lib") = Some metadata' /\
    map version (versions metadata') = map version (versions metadata) /\
    find (has_version "1.0.0") (versions metadata') = Some record /\
    yanked record = true /\
    status (fst (run (handleDownloadPackage "json-lib" "1.0.0") w1)) = 410.
Proof.
  intros request w1.
  apply (proj1 (proj2 (proj2 yanked_version_gone)) Demo.world "json-lib" "1.0.0" request
           (fst (run (handleYankVersion "json-lib" "1.0.0" true request) Demo.world))
           w1).
  - vm_compute. reflexivity.
  - vm_compute. reflexivity.
Defined.

Lemma publishes_accumulate_witness :
  let log := fst (serve Demo.session Demo.empty_world) in
  let w' := snd (serve Demo.session Demo.empty_world) in
  map (fun entry => status (snd entry)) log = [201; 201; 409; 200; 201; 200] /\
  length (List.filter (published "json-lib") log) = 2%nat /\
  exists metadata,
    fst (run (handleGetPackage "json-lib") w') = jsonResponse (PackageJson metadata) 200 /\
    length (versions metadata) = length (List.filter (published "json-lib") log) /\
    sorted_desc (map version (versions metadata)) /\
    NoDup (map version (versions metadata)).
Proof.
  intros log w'. split; [vm_compute; reflexivity|]. split; [vm_compute; reflexivity|].
  apply (proj1 publishes_accumulate Demo.empty_world "json-lib" Demo.session log w').
  - vm_compute. reflexivity.
  - vm_compute. reflexivity.
  - vm_compute. lia.
Defined.


(** ** Further properties of the handlers *)

(** *** More on publishing *)



(** The answer of a publish answered with 201. *)
Lemma publish_201_response request w resp w1 pkg ver :
  run (handlePublishPackage request) w = (resp, w1) -> status resp = 201 ->
  non_empty (headers request !! "X-Package-Name") = Some pkg ->
  non_empty (headers request !! "X-Package-Version") = Some ver ->
  resp = jsonResponse
           (PublishedJson ("Published " +:+ pkg +:+ "@" +:+ ver)
              (sha256_hex w (body request)) (download_path pkg ver)) 201.
Proof.
  intros Hrun Hst Hn Hv.
  destruct (publish_201 _ _ _ _ Hrun Hst)
    as (user & n & v & base & w0 & Hacc & _ & _ & _ & _ & _ & Hcommit).
  destruct Hacc as (token & _ & _ & _ & Hn' & Hv' & _).
  rewrite Hn in Hn'. rewrite Hv in Hv'. injection Hn' as <-. injection Hv' as <-.
  rewrite run_publish_commit in Hcommit. now injection Hcommit as <- _.
Qed.

(** The store after a publish answered with 201, with the names of the
    request. *)
Lemma publish_201_named request w resp w1 pkg ver :
  run (handlePublishPackage request) w = (resp, w1) -> status resp = 201 ->
  non_empty (headers request !! "X-Package-Name") = Some pkg ->
  non_empty (headers request !! "X-Package-Version") = Some ver ->
  exists user base published updated,
    accepted request w user pkg ver /\
    ((PACKAGES (env w) !! ("pkg:" +:+ pkg) = Some base /\
      existsb (has_version ver) (versions base) = false) \/
     (PACKAGES (env w) !! ("pkg:" +:+ pkg) = None /\
      exists created updated0,
        base = new_package pkg
                 (or_empty (headers request !! "X-Package-Description"))
                 user created updated0)) /\
    env w1 =
      grant user pkg
        (put_package ("pkg:" +:+ pkg)
           (committed request (body request) ver
              (sha256_hex w (body request)) published updated base)
           (put_tarball (tarball_key pkg ver)
              (tarball_object user (body request)
                 (sha256_hex w (body request)) published)
              (env w))).
Proof.
  intros Hrun Hst Hn Hv.
  destruct (publish_201_stored _ _ _ _ Hrun Hst)
    as (user & n & v & base & published & updated & Hacc & Hbase & _ & _ & Henv).
  pose proof Hacc as (token & _ & _ & _ & Hn' & Hv' & _).
  rewrite Hn in Hn'. rewrite Hv in Hv'. injection Hn' as <-. injection Hv' as <-.
  exists user, base, published, updated. auto.
Qed.

Lemma run_download_found pkg ver w metadata record blob :
  PACKAGES (env w) !! ("pkg:" +:+ pkg) = Some metadata ->
  find (has_version ver) (versions metadata) = Some record ->
  yanked record = false ->
  TARBALLS (env w) !! tarball_key pkg ver = Some blob ->
  run (handleDownloadPackage pkg ver) w =
  ({| status := 200;
      content := TarballBody (R2.body blob) (pkg +:+ "-" +:+ ver +:+ ".tar.gz")
                   (checksum record) |}, w).
Proof.
  intros Hm Hf Hy Hb. unfold handleDownloadPackage. simpl.
  rewrite Hm, Hf, Hy. simpl. now rewrite Hb.
Qed.

(** After a publish answered 201, a download of the published name and
    version is answered 200 with the bytes of the request, under the
    file name of the package and with the checksum the publish returned. *)
Theorem publish_download_roundtrip request w resp w1 pkg ver :
  run (handlePublishPackage request) w = (resp, w1) ->
  status resp = 201 ->
  non_empty (headers request !! "X-Package-Name") = Some pkg ->
  non_empty (headers request !! "X-Package-Version") = Some ver ->
  exists digest,
    content resp =
      PublishedJson ("Published " +:+ pkg +:+ "@" +:+ ver) digest
        (download_path pkg ver) /\
    digest = sha256_hex w (body request) /\
    run (handleDownloadPackage pkg ver) w1 =
      ({| status := 200;
          content := TarballBody (body request)
                       (pkg +:+ "-" +:+ ver +:+ ".tar.gz") digest |}, w1).
Proof.
  intros Hrun Hst Hn Hv. exists (sha256_hex w (body request)).
  rewrite (publish_201_response _ _ _ _ _ _ Hrun Hst Hn Hv).
  split; [reflexivity|]. split; [reflexivity|].
  destruct (publish_201_named _ _ _ _ _ _ Hrun Hst Hn Hv)
    as (user & base & published & updated & _ & Hbase & Henv).
  assert (Hold : existsb (has_version ver) (versions base) = false).
  { destruct Hbase as [[_ H]|[_ (c & u & ->)]]; [exact H|reflexivity]. }
  rewrite (run_download_found pkg ver w1
             (committed request (body request) ver (sha256_hex w (body request))
                published updated base)
             (new_version request (body request) ver
                (sha256_hex w (body request)) published)
             (tarball_object user (body request) (sha256_hex w (body request))
                published)).
  - reflexivity.
  - rewrite Henv, PACKAGES_grant. simpl. apply lookup_insert_eq.
  - now apply find_has_version_sorted.
  - reflexivity.
  - rewrite Henv, TARBALLS_grant. simpl. apply lookup_insert_eq.
Qed.

Lemma publish_download_roundtrip_witness :
  let request := Demo.publish "tok-bob" "json-lib" "2.0.0" "xyz" in
  let w1 := snd (run (handlePublishPackage request) Demo.world) in
  exists digest,
    content (fst (run (handlePublishPackage request) Demo.world)) =
      PublishedJson ("Published " +:+ "json-lib" +:+ "@" +:+ "2.0.0") digest
        (download_path "json-lib" "2.0.0") /\
    digest = sha256_hex Demo.world (body request) /\
    run (handleDownloadPackage "json-lib" "2.0.0") w1 =
      ({| status := 200;
          content := TarballBody (body request)
                       ("json-lib" +:+ "-" +:+ "2.0.0" +:+ ".tar.gz") digest |}, w1).
Proof.
  intros request w1.
  apply (publish_download_roundtrip request Demo.world
           (fst (run (handlePublishPackage request) Demo.world)) w1).
  - vm_compute. reflexivity.
  - vm_compute. reflexivity.
  - vm_compute. reflexivity.
  - vm_compute. reflexivity.
Defined.

(** A publish to a package that exists keeps its descriptive fields and
    every version record it had, adds one record that is not yanked, and
    leaves the other packages and the tokens as they were. *)
Theorem publish_keeps_existing request w resp w1 pkg ver old :
  run (handlePublishPackage request) w = (resp, w1) ->
  status resp = 201 ->
  non_empty (headers request !! "X-Package-Name") = Some pkg ->
  non_empty (headers request !! "X-Package-Version") = Some ver ->
  PACKAGES (env w) !! ("pkg:" +:+ pkg) = Some old ->
  exists new record,
    PACKAGES (env w1) !! ("pkg:" +:+ pkg) = Some new /\
    same_descriptive old new /\
    versions new ≡ₚ record :: versions old /\
    version record = ver /\ yanked record = false /\
    size record = Z.of_nat (length (body request)) /\
    TOKENS (env w1) = TOKENS (env w) /\
    (forall key, key <> "pkg:" +:+ pkg ->
       PACKAGES (env w1) !! key = PACKAGES (env w) !! key) /\
    (forall key, key <> tarball_key pkg ver ->
       TARBALLS (env w1) !! key = TARBALLS (env w) !! key).
Proof.
  intros Hrun Hst Hn Hv Hold.
  destruct (publish_201_named _ _ _ _ _ _ Hrun Hst Hn Hv)
    as (user & base & published & updated & _ & Hbase & Henv).
  destruct Hbase as [[Hb _]|[Hb _]]; [|congruence].
  rewrite Hold in Hb. injection Hb as <-.
  eexists _, (new_version request (body request) ver
                (sha256_hex w (body request)) published).
  split; [rewrite Henv, PACKAGES_grant; simpl; apply lookup_insert_eq|].
  split; [repeat split|]. simpl.
  split; [rewrite Array_sort_Permutation; now rewrite <- Permutation_cons_append|].
  repeat split.
  - rewrite Henv. unfold grant. now destruct (Array_includes _ _).
  - intros key Hne. rewrite Henv, PACKAGES_grant. simpl.
    now rewrite lookup_insert_ne.
  - intros key Hne. rewrite Henv, TARBALLS_grant. simpl.
    now rewrite lookup_insert_ne.
Qed.

Lemma publish_keeps_existing_witness :
  let request := Demo.publish "tok-bob" "json-lib" "2.0.0" "xyz" in
  let w1 := snd (run (handlePublishPackage request) Demo.world) in
  exists new record,
    PACKAGES (env w1) !! ("pkg:" +:+ "json-lib") = Some new /\
    same_descriptive Demo.json_lib new /\
    versions new ≡ₚ record :: versions Demo.json_lib /\
    version record = "2.0.0" /\ yanked record = false /\
    size record = Z.of_nat (length (body request)) /\
    TOKENS (env w1) = TOKENS (env Demo.world) /\
    (forall key, key <> "pkg:" +:+ "json-lib" ->
       PACKAGES (env w1) !! key = PACKAGES (env Demo.world) !! key) /\
    (forall key, key <> tarball_key "json-lib" "2.0.0" ->
       TARBALLS (env w1) !! key = TARBALLS (env Demo.world) !! key).
Proof.
  intros request w1.
  apply (publish_keeps_existing request Demo.world
           (fst (run (handlePublishPackage request) Demo.world)) w1).
  - vm_compute. reflexivity.
  - vm_compute. reflexivity.
  - vm_compute. reflexivity.
  - vm_compute. reflexivity.
  - vm_compute. reflexivity.
Defined.

Lemma Array_includes_true xs x : Array_includes xs x = true <-> x ∈ xs.
Proof.
  unfold Array_includes. rewrite existsb_exists. split.
  - intros (y & Hy & E). apply String.eqb_eq in E as ->. now apply list_elem_of_In.
  - intros H. exists x. split; [now apply list_elem_of_In|apply String.eqb_refl].
Qed.

(** The world a yank runs in after a token is verified. *)
Lemma run_yank_verified pkg ver yank request token user w metadata found :
  bearer request = Some token ->
  fst (run (verifyToken token) w) = Some user ->
  PACKAGES (env w) !! ("pkg:" +:+ pkg) = Some metadata ->
  find (has_version ver) (versions metadata) = Some found ->
  status (fst (run (handleYankVersion pkg ver yank request) w)) =
    (if may_modify user pkg then 200 else 403) /\
  (may_modify user pkg = false ->
   env (snd (run (handleYankVersion pkg ver yank request) w)) = env w).
Proof.
  intros Hb Hu Hm Hf. rewrite run_handleYankVersion, Hb.
  pose proof (verifyToken_env token w) as He.
  destruct (run (verifyToken token) w) as [u w0]. simpl in Hu, He. subst u.
  rewrite He, Hm, Hf. destruct (may_modify user pkg); simpl.
  - split; [reflexivity|discriminate].
  - split; [reflexivity|intros _; exact He].
Qed.

(** After a publish answered 201, the publisher's token is allowed to
    yank and unyank the published version, when the user records are
    stored under their own ids. *)
Theorem publisher_may_yank request request' w resp w1 pkg ver yank token :
  run (handlePublishPackage request) w = (resp, w1) ->
  status resp = 201 ->
  non_empty (headers request !! "X-Package-Name") = Some pkg ->
  non_empty (headers request !! "X-Package-Version") = Some ver ->
  bearer request = Some token ->
  bearer request' = Some token ->
  (forall key u, USERS (env w) !! key = Some u -> User.id u = key) ->
  status (fst (run (handleYankVersion pkg ver yank request') w1)) = 200.
Proof.
  intros Hrun Hst Hn Hv Hb Hb' Hown.
  destruct (publish_201_named _ _ _ _ _ _ Hrun Hst Hn Hv)
    as (user & base & published & updated & Hacc & Hbase & Henv).
  destruct Hacc as (token0 & Hb0 & Hu & _). rewrite Hb in Hb0. injection Hb0 as <-.
  assert (Hold : existsb (has_version ver) (versions base) = false).
  { destruct Hbase as [[_ H]|[_ (c & u & ->)]]; [exact H|reflexivity]. }
  assert (Hpk : PACKAGES (env w1) !! ("pkg:" +:+ pkg) =
                Some (committed request (body request) ver
                        (sha256_hex w (body request)) published updated base)).
  { rewrite Henv, PACKAGES_grant. simpl. apply lookup_insert_eq. }
  assert (Hfind : find (has_version ver)
                    (versions (committed request (body request) ver
                       (sha256_hex w (body request)) published updated base)) =
                  Some (new_version request (body request) ver
                          (sha256_hex w (body request)) published))
    by now apply find_has_version_sorted.
  assert (Hu1 : exists user1,
             fst (run (verifyToken token) w1) = Some user1 /\
             may_modify user1 pkg = true).
  { rewrite fst_run_verifyToken in Hu |- *.
    assert (Ha : ADMIN_TOKEN (env w1) = ADMIN_TOKEN (env w))
      by (rewrite Henv; unfold grant; now destruct (Array_includes _ _)).
    assert (Ht : TOKENS (env w1) = TOKENS (env w))
      by (rewrite Henv; unfold grant; now destruct (Array_includes _ _)).
    rewrite Ha, Ht. destruct (Str.is_empty token); [discriminate|].
    destruct (match ADMIN_TOKEN (env w) with
              | Some a => negb (Str.is_empty a) && String.eqb token a
              | None => false end); [eexists; split; [reflexivity|reflexivity]|].
    destruct (TOKENS (env w) !! token) as [uid|]; [|discriminate].
    destruct (Str.is_empty uid); [discriminate|].
    pose proof (Hown uid user Hu) as Hid.
    rewrite Henv. unfold grant.
    destruct (Array_includes (User.packages user) pkg) eqn:Hinc; simpl.
    - exists user. split; [exact Hu|]. unfold may_modify. rewrite Hinc.
      apply orb_true_r.
    - rewrite Hid, lookup_insert_eq. eexists. split; [reflexivity|].
      unfold may_modify. simpl. apply orb_true_iff. right.
      apply Array_includes_true, elem_of_app. right. now left. }
  destruct Hu1 as (user1 & Hu1 & Hmay).
  destruct (run_yank_verified pkg ver yank request' token user1 w1 _ _
              Hb' Hu1 Hpk Hfind) as [H _].
  now rewrite H, Hmay.
Qed.

Lemma publisher_may_yank_witness :
  let request := Demo.publish "tok-bob" "yaml-lib" "0.1.0" "uvw" in
  let w1 := snd (run (handlePublishPackage request) Demo.world) in
  status (fst (run (handleYankVersion "json-lib" "1.0.0" true
                      (Demo.authorized "tok-bob")) Demo.world)) = 403 /\
  status (fst (run (handleYankVersion "yaml-lib" "0.1.0" true
                      (Demo.authorized "tok-bob")) w1)) = 200.
Proof.
  intros request w1. split; [vm_compute; reflexivity|].
  apply (publisher_may_yank request (Demo.authorized "tok-bob") Demo.world
           (fst (run (handlePublishPackage request) Demo.world)) w1
           "yaml-lib" "0.1.0" true "tok-bob").
  - vm_compute. reflexivity.
  - vm_compute. reflexivity.
  - vm_compute. reflexivity.
  - vm_compute. reflexivity.
  - vm_compute. reflexivity.
  - vm_compute. reflexivity.
  - intros key u H. change (USERS (env Demo.world))
      with ({[ "u-alice" := Demo.alice; "u-bob" := Demo.bob ]} : gmap string User.t) in H.
    destruct (decide (key = "u-alice")) as [->|Ha].
    + rewrite lookup_insert_eq in H. now injection H as <-.
    + rewrite lookup_insert_ne in H by congruence.
      destruct (decide (key = "u-bob")) as [->|Hb].
      * rewrite lookup_singleton_eq in H. now injection H as <-.
      * rewrite lookup_singleton_ne in H by congruence. discriminate.
Defined.








(** *** Reading a package *)

(** A get of a stored package answers 200 with the record as stored, each
    version completed with its download path and the download count as it
    was before the request; it stores the record with the count raised by
    one and the download paths, and touches nothing else. *)
Theorem get_package_counts pkg w metadata resp w1 :
  PACKAGES (env w) !! ("pkg:" +:+ pkg) = Some metadata ->
  run (handleGetPackage pkg) w = (resp, w1) ->
  exists listed stored,
    resp = jsonResponse (PackageJson listed) 200 /\
    PACKAGES (env w1) !! ("pkg:" +:+ pkg) = Some stored /\
    same_descriptive metadata listed /\
    updated_at listed = updated_at metadata /\
    Forall2 (fun v v' => v' = set_download_url (download_path pkg (version v)) v)
            (versions metadata) (versions listed) /\
    stored = set_downloads (downloads metadata + 1) listed /\
    same_but_package ("pkg:" +:+ pkg) (env w) (env w1).
Proof.
  intros Hm Hrun. rewrite run_handleGetPackage, Hm in Hrun.
  injection Hrun as <- <-. eexists _, _. split; [reflexivity|].
  split; [simpl; apply lookup_insert_eq|]. split; [repeat split|].
  split; [reflexivity|]. split; [|split; [reflexivity|apply same_but_package_put]].
  simpl. induction (versions metadata); constructor; auto.
Qed.

Lemma get_package_counts_witness :
  let resp := fst (run (handleGetPackage "json-lib") Demo.world) in
  let w1 := snd (run (handleGetPackage "json-lib") Demo.world) in
  exists listed stored,
    resp = jsonResponse (PackageJson listed) 200 /\
    PACKAGES (env w1) !! ("pkg:" +:+ "json-lib") = Some stored /\
    same_descriptive Demo.json_lib listed /\
    updated_at listed = updated_at Demo.json_lib /\
    Forall2 (fun v v' =>
               v' = set_download_url (download_path "json-lib" (version v)) v)
            (versions Demo.json_lib) (versions listed) /\
    stored = set_downloads (downloads Demo.json_lib + 1) listed /\
    same_but_package ("pkg:" +:+ "json-lib") (env Demo.world) (env w1).
Proof.
  intros resp w1.
  apply (get_package_counts "json-lib" Demo.world Demo.json_lib resp w1).
  - vm_compute. reflexivity.
  - vm_compute. reflexivity.
Defined.

Lemma get_package_counts_stored pkg w metadata resp w1 :
  PACKAGES (env w) !! ("pkg:" +:+ pkg) = Some metadata ->
  run (handleGetPackage pkg) w = (resp, w1) ->
  exists stored,
    PACKAGES (env w1) !! ("pkg:" +:+ pkg) = Some stored /\
    downloads stored = downloads metadata + 1 /\
    map version (versions stored) = map version (versions metadata) /\
    map yanked (versions stored) = map yanked (versions metadata).
Proof.
  intros Hm Hrun. rewrite run_handleGetPackage, Hm in Hrun.
  injection Hrun as _ <-. eexists. split; [simpl; apply lookup_insert_eq|].
  simpl. rewrite !map_map. repeat split.
Qed.

(** [n] gets of a stored package, one after the other, raise its download
    count by [n] and keep its versions and their order. *)
Theorem gets_count_downloads pkg n : forall w metadata,
  PACKAGES (env w) !! ("pkg:" +:+ pkg) = Some metadata ->
  exists stored,
    PACKAGES (env (snd (serve (repeat (GetPackage pkg) n) w))) !! ("pkg:" +:+ pkg)
      = Some stored /\
    downloads stored = downloads metadata + Z.of_nat n /\
    map version (versions stored) = map version (versions metadata) /\
    map yanked (versions stored) = map yanked (versions metadata).
Proof.
  induction n as [|n IH]; intros w metadata Hm.
  - exists metadata. simpl. repeat split; [exact Hm|lia].
  - cbn [repeat serve handle].
    destruct (run (handleGetPackage pkg) w) as [resp w1] eqn:Hrun.
    destruct (get_package_counts_stored pkg w metadata resp w1 Hm Hrun)
      as (stored1 & Hs1 & Hd1 & Hv1 & Hy1).
    destruct (IH w1 stored1 Hs1) as (stored & Hs & Hd & Hv & Hy).
    destruct (serve (repeat (GetPackage pkg) n) w1) as [log w2]. simpl in *.
    exists stored. split; [exact Hs|]. split; [lia|]. split; congruence.
Qed.

Lemma gets_count_downloads_witness :
  exists stored,
    PACKAGES (env (snd (serve (repeat (GetPackage "json-lib") 3) Demo.world)))
      !! ("pkg:" +:+ "json-lib") = Some stored /\
    downloads stored = downloads Demo.json_lib + Z.of_nat 3 /\
    map version (versions stored) = map version (versions Demo.json_lib) /\
    map yanked (versions stored) = map yanked (versions Demo.json_lib).
Proof.
  apply (gets_count_downloads "json-lib" 3 Demo.world Demo.json_lib).
  vm_compute. reflexivity.
Defined.

(** *** Downloading *)



(** *** More on yanking *)



(** For an authenticated caller and a version that exists, a yank or
    unyank is answered 200 exactly when the caller's id is "admin" or the
    caller's package list holds the package, and 403 otherwise. *)
Theorem yank_authorization pkg ver yank request token user w metadata found :
  bearer request = Some token ->
  fst (run (verifyToken token) w) = Some user ->
  PACKAGES (env w) !! ("pkg:" +:+ pkg) = Some metadata ->
  find (has_version ver) (versions metadata) = Some found ->
  let resp := fst (run (handleYankVersion pkg ver yank request) w) in
  (status resp = 200 \/ status resp = 403) /\
  (status resp = 200 <-> User.id user = "admin" \/ pkg ∈ User.packages user).
Proof.
  intros Hb Hu Hm Hf resp.
  destruct (run_yank_verified pkg ver yank request token user w metadata found
              Hb Hu Hm Hf) as [Hst _].
  fold resp in Hst. rewrite Hst. unfold may_modify.
  destruct (String.eqb_spec (User.id user) "admin") as [Hid|Hid]; simpl.
  - split; [auto|]. split; auto.
  - destruct (Array_includes (User.packages user) pkg) eqn:Hinc.
    + apply Array_includes_true in Hinc. split; [auto|]. split; auto.
    + split; [auto|]. split; [discriminate|]. intros [H|H]; [contradiction|].
      apply Array_includes_true in H. congruence.
Qed.

Lemma yank_authorization_witness :
  let resp := fst (run (handleYankVersion "json-lib" "1.0.0" true
                          (Demo.authorized "tok-bob")) Demo.world) in
  status resp = 403 /\
  ((status resp = 200 \/ status resp = 403) /\
   (status resp = 200 <->
    User.id Demo.bob = "admin" \/ "json-lib" ∈ User.packages Demo.bob)).
Proof.
  intros resp. split; [vm_compute; reflexivity|].
  apply (yank_authorization "json-lib" "1.0.0" true (Demo.authorized "tok-bob")
           "tok-bob" Demo.bob Demo.world Demo.json_lib Demo.json_lib_1_0_0).
  - vm_compute. reflexivity.
  - vm_compute. reflexivity.
  - vm_compute. reflexivity.
  - vm_compute. reflexivity.
Defined.

(** The admin secret, when it is set and not empty, yanks any version
    that exists, whoever published it. *)
Theorem admin_token_may_yank pkg ver yank request secret w metadata found :
  ADMIN_TOKEN (env w) = Some secret -> secret <> "" ->
  bearer request = Some secret ->
  PACKAGES (env w) !! ("pkg:" +:+ pkg) = Some metadata ->
  find (has_version ver) (versions metadata) = Some found ->
  exists w1 stored record,
    run (handleYankVersion pkg ver yank request) w =
      (jsonResponse
         (MessageJson ((if yank then "Yanked" else "Unyanked") +:+ " "
                       +:+ pkg +:+ "@" +:+ ver)) 200, w1) /\
    PACKAGES (env w1) !! ("pkg:" +:+ pkg) = Some stored /\
    find (has_version ver) (versions stored) = Some record /\
    yanked record = yank.
Proof.
  intros Ha Hne Hb Hm Hf. rewrite run_handleYankVersion, Hb.
  pose proof (verifyToken_env secret w) as He.
  pose proof (fst_run_verifyToken secret w) as Hu. rewrite Ha in Hu.
  assert (Hs : Str.is_empty secret = false) by (destruct secret; [now destruct Hne|reflexivity]).
  rewrite Hs, String.eqb_refl in Hu. simpl in Hu.
  destruct (run (verifyToken secret) w) as [u w0]. simpl in Hu, He. subst u.
  rewrite He, Hm, Hf. unfold may_modify. simpl.
  eexists _, _, (set_yanked yank found). split; [reflexivity|].
  split; [simpl; apply lookup_insert_eq|]. simpl. split; [|reflexivity].
  apply find_update_first; [exact Hf|]. now apply find_some in Hf as [_ Hf].
Qed.

Lemma admin_token_may_yank_witness :
  exists w1 stored record,
    run (handleYankVersion "json-lib" "1.0.0" true (Demo.authorized "root-secret"))
        Demo.world =
      (jsonResponse
         (MessageJson ((if true then "Yanked" else "Unyanked") +:+ " "
                       +:+ "json-lib" +:+ "@" +:+ "1.0.0")) 200, w1) /\
    PACKAGES (env w1) !! ("pkg:" +:+ "json-lib") = Some stored /\
    find (has_version "1.0.0") (versions stored) = Some record /\
    yanked record = true.
Proof.
  apply (admin_token_may_yank "json-lib" "1.0.0" true (Demo.authorized "root-secret")
           "root-secret" Demo.world Demo.json_lib Demo.json_lib_1_0_0).
  - vm_compute. reflexivity.
  - discriminate.
  - vm_compute. reflexivity.
  - vm_compute. reflexivity.
  - vm_compute. reflexivity.
Defined.

Lemma update_first_set_yanked_twice ver y y' vs :
  update_first (has_version ver) (set_yanked y')
    (update_first (has_version ver) (set_yanked y) vs)
  = update_first (has_version ver) (set_yanked y') vs.
Proof.
  induction vs as [|v vs IH]; simpl; [reflexivity|].
  destruct (has_version ver v) eqn:Hv; simpl.
  - unfold has_version in *. simpl. now rewrite Hv.
  - now rewrite Hv, IH.
Qed.

Lemma update_first_unyank_not_yanked ver vs found :
  find (has_version ver) vs = Some found -> yanked found = false ->
  update_first (has_version ver) (set_yanked false) vs = vs.
Proof.
  induction vs as [|v vs IH]; simpl; [discriminate|].
  destruct (has_version ver v).
  - intros [= ->] Hy. f_equal. destruct found. simpl in Hy. now subst.
  - intros Hf Hy. f_equal. now apply IH.
Qed.

(** Yanking is idempotent: a second yank of the same version, answered
    200 like the first, leaves the version records as the first left
    them. *)
Theorem yank_idempotent pkg ver yank request1 request2 w resp1 w1 resp2 w2 :
  run (handleYankVersion pkg ver yank request1) w = (resp1, w1) ->
  status resp1 = 200 ->
  run (handleYankVersion pkg ver yank request2) w1 = (resp2, w2) ->
  status resp2 = 200 ->
  exists stored1 stored2,
    PACKAGES (env w1) !! ("pkg:" +:+ pkg) = Some stored1 /\
    PACKAGES (env w2) !! ("pkg:" +:+ pkg) = Some stored2 /\
    versions stored2 = versions stored1 /\
    same_descriptive stored1 stored2.
Proof.
  intros Hrun1 Hst1 Hrun2 Hst2.
  destruct (yank_200 _ _ _ _ _ _ _ Hrun1 Hst1) as (m & found & Hm & Hf & He1).
  destruct (yank_200 _ _ _ _ _ _ _ Hrun2 Hst2) as (m1 & found1 & Hm1 & Hf1 & He2).
  rewrite He1 in Hm1. simpl in Hm1. rewrite lookup_insert_eq in Hm1.
  injection Hm1 as <-.
  eexists _, _. split; [rewrite He1; simpl; apply lookup_insert_eq|].
  split; [rewrite He2; simpl; apply lookup_insert_eq|]. simpl.
  split; [apply update_first_set_yanked_twice|repeat split].
Qed.

Lemma yank_idempotent_witness :
  let request := Demo.authorized "tok-alice" in
  let w1 := snd (run (handleYankVersion "json-lib" "1.0.0" true request) Demo.world) in
  let w2 := snd (run (handleYankVersion "json-lib" "1.0.0" true request) w1) in
  exists stored1 stored2,
    PACKAGES (env w1) !! ("pkg:" +:+ "json-lib") = Some stored1 /\
    PACKAGES (env w2) !! ("pkg:" +:+ "json-lib") = Some stored2 /\
    versions stored2 = versions stored1 /\
    same_descriptive stored1 stored2.
Proof.
  intros request w1 w2.
  apply (yank_idempotent "json-lib" "1.0.0" true request request Demo.world
           (fst (run (handleYankVersion "json-lib" "1.0.0" true request) Demo.world))
           w1
           (fst (run (handleYankVersion "json-lib" "1.0.0" true request) w1)) w2).
  - vm_compute. reflexivity.
  - vm_compute. reflexivity.
  - vm_compute. reflexivity.
  - vm_compute. reflexivity.
Defined.

(** A yank followed by an unyank of a version that was not yanked puts
    the version records back exactly as they were; of the package record
    only [updated_at] differs. *)
Theorem yank_unyank_restores pkg ver request1 request2 w metadata found
    resp1 w1 resp2 w2 :
  PACKAGES (env w) !! ("pkg:" +:+ pkg) = Some metadata ->
  find (has_version ver) (versions metadata) = Some found ->
  yanked found = false ->
  run (handleYankVersion pkg ver true request1) w = (resp1, w1) ->
  status resp1 = 200 ->
  run (handleYankVersion pkg ver false request2) w1 = (resp2, w2) ->
  status resp2 = 200 ->
  exists restored,
    PACKAGES (env w2) !! ("pkg:" +:+ pkg) = Some restored /\
    versions restored = versions metadata /\
    same_descriptive metadata restored /\
    same_but_package ("pkg:" +:+ pkg) (env w) (env w2).
Proof.
  intros Hm Hf Hy Hrun1 Hst1 Hrun2 Hst2.
  destruct (yank_200 _ _ _ _ _ _ _ Hrun1 Hst1) as (m & f1 & Hm' & _ & He1).
  rewrite Hm in Hm'. injection Hm' as <-.
  destruct (yank_200 _ _ _ _ _ _ _ Hrun2 Hst2) as (m1 & f2 & Hm1 & _ & He2).
  rewrite He1 in Hm1. simpl in Hm1. rewrite lookup_insert_eq in Hm1.
  injection Hm1 as <-.
  eexists. split; [rewrite He2; simpl; apply lookup_insert_eq|]. simpl.
  split.
  { rewrite update_first_set_yanked_twice.
    now apply (update_first_unyank_not_yanked ver _ found). }
  split; [repeat split|].
  rewrite He2, He1. repeat split. intros key Hne. simpl.
  now rewrite !lookup_insert_ne.
Qed.

Lemma yank_unyank_restores_witness :
  let request := Demo.authorized "tok-alice" in
  let w1 := snd (run (handleYankVersion "json-lib" "1.0.0" true request) Demo.world) in
  let w2 := snd (run (handleYankVersion "json-lib" "1.0.0" false request) w1) in
  exists restored,
    PACKAGES (env w2) !! ("pkg:" +:+ "json-lib") = Some restored /\
    versions restored = versions Demo.json_lib /\
    same_descriptive Demo.json_lib restored /\
    same_but_package ("pkg:" +:+ "json-lib") (env Demo.world) (env w2).
Proof.
  intros request w1 w2.
  apply (yank_unyank_restores "json-lib" "1.0.0" request request Demo.world
           Demo.json_lib Demo.json_lib_1_0_0
           (fst (run (handleYankVersion "json-lib" "1.0.0" true request) Demo.world))
           w1
           (fst (run (handleYankVersion "json-lib" "1.0.0" false request) w1)) w2).
  - vm_compute. reflexivity.
  - vm_compute. reflexivity.
  - vm_compute. reflexivity.
  - vm_compute. reflexivity.
  - vm_compute. reflexivity.
  - vm_compute. reflexivity.
  - vm_compute. reflexivity.
Defined.

(** *** Requests without a valid token *)



(** *** Searching, listing and the web pages *)

Lemma toLowerCase_char_idempotent c :
  Str.toLowerCase_char (Str.toLowerCase_char c) = Str.toLowerCase_char c.
Proof. destruct c as [[] [] [] [] [] [] [] []]; reflexivity. Qed.

Lemma toLowerCase_idempotent s : Str.toLowerCase (Str.toLowerCase s) = Str.toLowerCase s.
Proof.
  induction s as [|c s IH]; simpl; [reflexivity|].
  now rewrite toLowerCase_char_idempotent, IH.
Qed.

(** The search does not see the case of the query: two queries with the
    same lowercase form select the same packages, and so do a query and
    its lowercase form. *)
Theorem search_ignores_query_case :
  (forall q1 q2 w,
     Str.toLowerCase q1 = Str.toLowerCase q2 ->
     run (handleSearchPackages q1) w = run (handleSearchPackages q2) w) /\
  (forall q w,
     run (handleSearchPackages (Str.toLowerCase q)) w = run (handleSearchPackages q) w).
Proof.
  split.
  - intros q1 q2 w H. rewrite !run_handleSearchPackages. now rewrite H.
  - intros q w. rewrite !run_handleSearchPackages. now rewrite toLowerCase_idempotent.
Qed.

Lemma search_ignores_query_case_witness :
  run (handleSearchPackages "JSON") Demo.world =
  run (handleSearchPackages "json") Demo.world /\
  fst (run (handleSearchPackages "jSoN") Demo.world) =
  jsonResponse (SearchJson [Demo.json_lib]) 200.
Proof.
  split.
  - apply (proj1 search_ignores_query_case "JSON" "json" Demo.world). reflexivity.
  - vm_compute. reflexivity.
Defined.

Lemma run_search_page_loop q keys packages w :
  run (search_page_loop q keys packages) w =
  (packages ++
   map search_entry
     (List.filter (matches q) (omap (fun key => PACKAGES (env w) !! key) keys)), w).
Proof.
  revert packages. induction keys as [|key keys IH]; intros packages; simpl.
  - now rewrite app_nil_r.
  - destruct (PACKAGES (env w) !! key) as [m|]; simpl; [|apply IH].
    destruct (matches q m); rewrite IH; [|reflexivity].
    simpl. now rewrite <- app_assoc.
Qed.

(** The search page of the web UI shows exactly the packages that the
    search of the API returns for the same query, in the same order, and
    like it changes nothing. *)
Theorem web_search_agrees_with_api query w :
  exists results,
    run (handleSearchPackages query) w = (jsonResponse (SearchJson results) 200, w) /\
    run (fetch_search query) w =
      (htmlResponse (searchPage (map search_entry results) query) 200, w).
Proof.
  eexists. split; [apply run_handleSearchPackages|].
  unfold fetch_search. simpl. rewrite run_bind, run_search_page_loop. reflexivity.
Qed.

Lemma web_search_agrees_with_api_witness :
  exists results,
    run (handleSearchPackages "PARSER") Demo.world =
      (jsonResponse (SearchJson results) 200, Demo.world) /\
    run (fetch_search "PARSER") Demo.world =
      (htmlResponse (searchPage (map search_entry results) "PARSER") 200, Demo.world).
Proof. exact (web_search_agrees_with_api "PARSER" Demo.world). Defined.

Lemma run_home_loop_cons key keys packages totalDownloads totalVersions w :
  run (home_loop (key :: keys) packages totalDownloads totalVersions) w =
  match PACKAGES (env w) !! key with
  | None => run (home_loop keys packages totalDownloads totalVersions) w
  | Some metadata =>
      run (home_loop keys (packages ++ [home_entry metadata])
             (totalDownloads + downloads metadata)
             (totalVersions + Z.of_nat (length (versions metadata)))) w
  end.
Proof. simpl. destruct (PACKAGES (env w) !! key); reflexivity. Qed.

Lemma run_home_loop keys w : forall packages totalDownloads totalVersions,
  run (home_loop keys packages totalDownloads totalVersions) w =
  ((packages ++ map home_entry (omap (fun key => PACKAGES (env w) !! key) keys),
    totalDownloads +
      sum_Z (map downloads (omap (fun key => PACKAGES (env w) !! key) keys)),
    totalVersions +
      sum_Z (map (fun m => Z.of_nat (length (versions m)))
               (omap (fun key => PACKAGES (env w) !! key) keys))), w).
Proof.
  induction keys as [|key keys IH]; intros packages td tv.
  - simpl. now rewrite app_nil_r, !Z.add_0_r.
  - rewrite run_home_loop_cons. cbn [omap list_omap].
    destruct (PACKAGES (env w) !! key) as [m|]; rewrite IH; [|reflexivity].
    cbn [map]. unfold sum_Z. cbn [foldr]. rewrite <- app_assoc.
    f_equal. f_equal; [f_equal|]; first [reflexivity|lia].
Qed.

(** The home page shows one entry for each package of the API listing, in
    the same order and with the same latest version, and its statistics
    are the number of these packages, the sum of their download counts and
    the sum of their numbers of versions, yanked ones included. *)
Theorem home_page_agrees_with_listing w :
  let records := stored_records w in
  run handleListPackages w =
    (jsonResponse (ListJson (map summary_of records)) 200, w) /\
  run fetch_home w =
    (htmlResponse
       (homePage (map home_entry records)
          {| totalPackages := Z.of_nat (length records);
             totalDownloads := sum_Z (map downloads records);
             totalVersions :=
               sum_Z (map (fun m => Z.of_nat (length (versions m))) records) |})
       200, w) /\
  map entry_name (map home_entry records) = map summary_name (map summary_of records) /\
  map entry_latest (map home_entry records) = map latest (map summary_of records).
Proof.
  intros records. split; [apply run_handleListPackages|]. split.
  - unfold fetch_home. simpl. rewrite run_bind.
    rewrite (run_home_loop (list_keys "pkg:" (PACKAGES (env w))) w [] 0 0).
    fold (stored_records w). fold records. cbn [app]. rewrite !Z.add_0_l.
    now rewrite length_map.
  - rewrite !map_map. split; reflexivity.
Qed.

Lemma home_page_agrees_with_listing_witness :
  run fetch_home Demo.world =
  (htmlResponse
     (homePage (map home_entry (stored_records Demo.world))
        {| totalPackages := Z.of_nat (length (stored_records Demo.world));
           totalDownloads := sum_Z (map downloads (stored_records Demo.world));
           totalVersions :=
             sum_Z (map (fun m => Z.of_nat (length (versions m)))
                      (stored_records Demo.world)) |})
     200, Demo.world) /\
  stored_records Demo.world = [Demo.json_lib].
Proof.
  split; [exact (proj1 (proj2 (home_page_agrees_with_listing Demo.world)))|].
  vm_compute. reflexivity.
Defined.




(** *** Routing *)

Lemma split_join_path segments :
  segments <> [] ->
  Forall (fun s => Str.forallb (not_sep "/") s = true) segments ->
  Str.split "/" (join_path segments) = segments.
Proof.
  induction segments as [|s rest IH]; intros Hne Hall; [now destruct Hne|].
  apply Forall_cons in Hall as [Hs Hrest]. destruct rest as [|s' rest'].
  - simpl. now apply split_no_sep.
  - change (join_path (s :: s' :: rest'))
      with (s +:+ String "/" (join_path (s' :: rest'))).
    rewrite split_app_sep by exact Hs. f_equal. now apply IH.
Qed.

Lemma is_name_char_not_slash c : is_name_char c = true -> not_sep "/" c = true.
Proof. destruct c as [[] [] [] [] [] [] [] []]; vm_compute; congruence. Qed.

Lemma valid_name_segment s : valid_name s = true -> is_segment s.
Proof.
  destruct s as [|c s]; [discriminate|]. simpl. intros H.
  apply andb_true_iff in H as [Hc Hs]. split; [discriminate|].
  cbn [Str.forallb]. rewrite (forallb_impl _ _ _ is_name_char_not_slash Hs), andb_true_r.
  apply is_name_char_not_slash. unfold is_name_char. now rewrite Hc.
Qed.

Lemma is_prerelease_char_not_slash c :
  is_prerelease_char c = true -> not_sep "/" c = true.
Proof. destruct c as [[] [] [] [] [] [] [] []]; vm_compute; congruence. Qed.

Lemma is_digit_not_slash c : Str.is_digit c = true -> not_sep "/" c = true.
Proof. destruct c as [[] [] [] [] [] [] [] []]; vm_compute; congruence. Qed.

Lemma valid_version_segment s : valid_version s = true -> is_segment s.
Proof.
  intros Hv. split; [intros ->; discriminate Hv|].
  destruct (valid_version_inv s Hv)
    as (d1 & d2 & d3 & r & -> & F1 & F2 & F3 & _ & _ & _ & Hr).
  rewrite forallb_app. cbn [Str.forallb]. rewrite forallb_app. cbn [Str.forallb].
  rewrite forallb_app.
  rewrite !(forallb_impl _ _ _ is_digit_not_slash) by assumption. simpl.
  destruct r as [|c r]; [reflexivity|]. simpl in Hr.
  destruct (Ascii.eqb_spec c "-") as [->|Hc];
    [|destruct c as [[] [] [] [] [] [] [] []]; try discriminate; now destruct Hc].
  apply andb_true_iff in Hr as [_ Hr]. cbn [Str.forallb].
  now rewrite (forallb_impl _ _ _ is_prerelease_char_not_slash Hr).
Qed.

Lemma path_match_join segments :
  segments <> [] ->
  Forall (fun s => Str.forallb (not_sep "/") s = true) segments ->
  forall pattern,
    path_match pattern (join_path segments) = match_path pattern segments.
Proof. intros Hne Hall pattern. unfold path_match. now rewrite split_join_path. Qed.

Lemma is_segment_not_empty s : is_segment s -> Str.is_empty s = false.
Proof. intros [H _]. destruct s; [now destruct H|reflexivity]. Qed.

(** The paths the registry hands out for a package name and a version that
    the publish handler accepts lead back to that package and version:
    the download path that a publish returns and a get lists is routed to
    the download of this name and version, and so are the paths of the
    metadata, of the yank, of the unyank and of the web page. *)
Theorem registry_paths_route_back n v q request :
  valid_name n = true -> valid_version v = true ->
  route "GET" (download_path n v) q request = Api (DownloadPackage n v) /\
  route "GET" ("/api/v1/packages/" +:+ n) q request = Api (GetPackage n) /\
  route "POST" ("/api/v1/packages/" +:+ n +:+ "/" +:+ v +:+ "/yank") q request
    = Api (YankVersion n v request) /\
  route "POST" ("/api/v1/packages/" +:+ n +:+ "/" +:+ v +:+ "/unyank") q request
    = Api (UnyankVersion n v request) /\
  route "GET" ("/packages/" +:+ n) q request = PackageRoute n.
Proof.
  intros Vn Vv.
  pose proof (valid_name_segment n Vn) as Hn.
  pose proof (valid_version_segment v Vv) as Hv.
  pose proof (is_segment_not_empty n Hn) as En.
  pose proof (is_segment_not_empty v Hv) as Ev.
  destruct Hn as [_ Hn], Hv as [_ Hv].
  repeat split.
  - change (download_path n v)
      with (join_path [""; "api"; "v1"; "packages"; n; v; "download"]).
    assert (Hall : Forall (fun s => Str.forallb (not_sep "/") s = true)
                     [""; "api"; "v1"; "packages"; n; v; "download"])
      by (repeat constructor; assumption).
    assert (Hne : [""; "api"; "v1"; "packages"; n; v; "download"] <> []) by discriminate.
    unfold route. rewrite !(path_match_join _ Hne Hall). cbn [match_path].
    now rewrite En, Ev.
  - change ("/api/v1/packages/" +:+ n)
      with (join_path [""; "api"; "v1"; "packages"; n]).
    assert (Hall : Forall (fun s => Str.forallb (not_sep "/") s = true)
                     [""; "api"; "v1"; "packages"; n])
      by (repeat constructor; assumption).
    assert (Hne : [""; "api"; "v1"; "packages"; n] <> []) by discriminate.
    unfold route. rewrite !(path_match_join _ Hne Hall). cbn [match_path].
    now rewrite En.
  - change ("/api/v1/packages/" +:+ n +:+ "/" +:+ v +:+ "/yank")
      with (join_path [""; "api"; "v1"; "packages"; n; v; "yank"]).
    assert (Hall : Forall (fun s => Str.forallb (not_sep "/") s = true)
                     [""; "api"; "v1"; "packages"; n; v; "yank"])
      by (repeat constructor; assumption).
    assert (Hne : [""; "api"; "v1"; "packages"; n; v; "yank"] <> []) by discriminate.
    unfold route. rewrite !(path_match_join _ Hne Hall). cbn [match_path].
    now rewrite En, Ev.
  - change ("/api/v1/packages/" +:+ n +:+ "/" +:+ v +:+ "/unyank")
      with (join_path [""; "api"; "v1"; "packages"; n; v; "unyank"]).
    assert (Hall : Forall (fun s => Str.forallb (not_sep "/") s = true)
                     [""; "api"; "v1"; "packages"; n; v; "unyank"])
      by (repeat constructor; assumption).
    assert (Hne : [""; "api"; "v1"; "packages"; n; v; "unyank"] <> []) by discriminate.
    unfold route. rewrite !(path_match_join _ Hne Hall). cbn [match_path].
    now rewrite En, Ev.
  - change ("/packages/" +:+ n) with (join_path [""; "packages"; n]).
    assert (Hall : Forall (fun s => Str.forallb (not_sep "/") s = true)
                     [""; "packages"; n])
      by (repeat constructor; assumption).
    assert (Hne : [""; "packages"; n] <> []) by discriminate.
    unfold route. rewrite !(path_match_join _ Hne Hall). cbn [match_path].
    now rewrite En.
Qed.

Lemma registry_paths_route_back_witness :
  route "GET" "/api/v1/packages/json-lib/1.0.0-rc.1/download" None (Demo.authorized "")
    = Api (DownloadPackage "json-lib" "1.0.0-rc.1") /\
  route "POST" "/api/v1/packages/json-lib/1.0.0-rc.1/yank" None (Demo.authorized "")
    = Api (YankVersion "json-lib" "1.0.0-rc.1" (Demo.authorized "")).
Proof.
  destruct (registry_paths_route_back "json-lib" "1.0.0-rc.1" None (Demo.authorized "")
              eq_refl eq_refl) as (H1 & _ & H2 & _).
  split; [exact H1|exact H2].
Defined.

(** Only GET, POST and OPTIONS requests reach a handler: with any other
    method every path is answered by the 404 page, but [/api/v1], which
    serves the registry information to every method. *)
Theorem other_methods_not_served method path q request :
  method <> "GET" -> method <> "POST" -> method <> "OPTIONS" ->
  route method path q request =
    if String.eqb path "/api/v1" then RegistryInfo else NotFound.
Proof.
  intros HG HP HO. unfold route.
  apply String.eqb_neq in HG, HP, HO. rewrite HG, HP, HO, !andb_false_r.
  assert (Hm : forall (o : option (list string)) (X : Route) (f : string -> Route),
             match o, false with Some [name], true => f name | _, _ => X end = X).
  { intros [[|? [|? ?]]|] X f; reflexivity. }
  assert (Hm2 : forall (o : option (list string)) (X : Route)
                       (f : string -> string -> Route),
             match o, false with
             | Some [name; version], true => f name version
             | _, _ => X end = X).
  { intros [[|? [|? [|? ?]]]|] X f; reflexivity. }
  rewrite (Hm _ _ PackageRoute).
  destruct (String.eqb path "/api/v1"); [reflexivity|].
  rewrite (Hm _ _ (fun name => Api (GetPackage name))).
  rewrite (Hm2 _ _ (fun name version => Api (DownloadPackage name version))).
  rewrite (Hm2 _ _ (fun name version => Api (YankVersion name version request))).
  rewrite (Hm2 _ _ (fun name version => Api (UnyankVersion name version request))).
  reflexivity.
Qed.

Lemma other_methods_not_served_witness :
  route "DELETE" "/api/v1/packages/json-lib" None (Demo.authorized "tok-alice")
    = NotFound /\
  route "PUT" "/api/v1" None (Demo.authorized "tok-alice") = RegistryInfo.
Proof.
  split.
  - apply (other_methods_not_served "DELETE" "/api/v1/packages/json-lib" None
             (Demo.authorized "tok-alice")); discriminate.
  - apply (other_methods_not_served "PUT" "/api/v1" None
             (Demo.authorized "tok-alice")); discriminate.
Defined.

(** *** HTML escaping *)

Lemma replace_all_app c r a b :
  replace_all c r (a +:+ b) = replace_all c r a +:+ replace_all c r b.
Proof.
  induction a as [|x a IH].
  - reflexivity.
  - rewrite append_cons. cbn [replace_all]. rewrite IH.
    destruct (Ascii.eqb x c).
    + now rewrite append_assoc.
    + now rewrite append_cons.
Qed.

Lemma escapeHtml_unfold s :
  escapeHtml s =
  replace_all "'" "&#039;"
    (replace_all dquote "&quot;"
       (replace_all ">" "&gt;"
          (replace_all "<" "&lt;"
             (replace_all "&" "&amp;" s)))).
Proof. destruct s; reflexivity. Qed.

Lemma escape_char_cases c :
  (c = "&"%char /\ escape_char c = "&amp;") \/
  (c = "<"%char /\ escape_char c = "&lt;") \/
  (c = ">"%char /\ escape_char c = "&gt;") \/
  (c = dquote /\ escape_char c = "&quot;") \/
  (c = "'"%char /\ escape_char c = "&#039;") \/
  (is_markup c = false /\ escape_char c = String c "").
Proof.
  unfold escape_char, is_markup.
  destruct (Ascii.eqb_spec c "&"); [now left|right].
  destruct (Ascii.eqb_spec c "<"); [now left|right].
  destruct (Ascii.eqb_spec c ">"); [now left|right].
  destruct (Ascii.eqb_spec c dquote); [now left|right].
  destruct (Ascii.eqb_spec c "'"); [now left|right].
  now split.
Qed.

Lemma escapeHtml_cons c s :
  escapeHtml (String c s) = escape_char c +:+ escapeHtml s.
Proof.
  rewrite !escapeHtml_unfold.
  change (String c s) with (String c "" +:+ s).
  rewrite !replace_all_app. f_equal.
  destruct c as [[] [] [] [] [] [] [] []]; reflexivity.
Qed.

(** The five replacements of [escapeHtml], made one after the other on the
    whole text, replace every character of the input exactly once: what is
    written for one character is not touched by a later replacement. *)
Theorem escapeHtml_char_by_char s :
  escapeHtml s = concat_strings (map escape_char (list_ascii_of_string s)).
Proof.
  induction s as [|c s IH]; [reflexivity|].
  rewrite escapeHtml_cons, IH. reflexivity.
Qed.

(** [escapeHtml] distributes over concatenation, so a page may escape its
    parts separately. *)
Lemma escapeHtml_app a b :
  escapeHtml (a +:+ b) = escapeHtml a +:+ escapeHtml b.
Proof.
  induction a as [|c a IH].
  - reflexivity.
  - rewrite append_cons, !escapeHtml_cons, IH. now rewrite append_assoc.
Qed.

Lemma escape_char_safe c :
  Str.forallb (fun x => negb (is_markup x) || Ascii.eqb x "&") (escape_char c)
  = true.
Proof. destruct c as [[] [] [] [] [] [] [] []]; reflexivity. Qed.

Lemma escape_char_token c :
  is_reference (escape_char c) = true \/
  (escape_char c = String c "" /\ is_markup c = false).
Proof.
  destruct (escape_char_cases c)
    as [[-> ->]|[[-> ->]|[[-> ->]|[[-> ->]|[[-> ->]|[H ->]]]]]];
    [left; reflexivity..|right; now split].
Qed.

(** The text [escapeHtml] returns has no [<], [>], double or single quote,
    and it is a sequence of pieces, one for each character of the input,
    each of which is one of the five character references or an input
    character that is not markup: every [&] of the output starts a
    reference. *)
Theorem escapeHtml_output_safe s :
  Str.forallb (fun x => negb (is_markup x) || Ascii.eqb x "&") (escapeHtml s)
    = true /\
  exists pieces,
    escapeHtml s = concat_strings pieces /\
    length pieces = String.length s /\
    Forall (fun t => is_reference t = true \/
                     exists c, t = String c "" /\ is_markup c = false) pieces.
Proof.
  split.
  - induction s as [|c s IH]; [reflexivity|].
    rewrite escapeHtml_cons, forallb_app, escape_char_safe, IH. reflexivity.
  - induction s as [|c s (pieces & E & L & F)].
    + exists []. repeat split. constructor.
    + exists (escape_char c :: pieces). split; [|split].
      * rewrite escapeHtml_cons, E. reflexivity.
      * cbn [length String.length]. now rewrite L.
      * constructor; [|exact F].
        destruct (escape_char_token c) as [H|[H1 H2]]; [now left|].
        right. exists c. now split.
Qed.

Lemma escape_char_append_inj c d a b :
  escape_char c +:+ a = escape_char d +:+ b -> c = d /\ a = b.
Proof.
  intros H.
  destruct (escape_char_cases c)
    as [[-> Ec]|[[-> Ec]|[[-> Ec]|[[-> Ec]|[[-> Ec]|[Hc Ec]]]]]];
  destruct (escape_char_cases d)
    as [[-> Ed]|[[-> Ed]|[[-> Ed]|[[-> Ed]|[[-> Ed]|[Hd Ed]]]]]];
  rewrite ?Ec, ?Ed in H; cbv [String.append] in H;
  try discriminate H;
  try (injection H as <- <-; now split);
  try (injection H as <-; now split);
  try (injection H as <- _; vm_compute in Hd; discriminate Hd);
  try (injection H as -> _; vm_compute in Hc; discriminate Hc).
Qed.

(** [escapeHtml] loses nothing: two texts with the same escaped form are
    the same text. *)
Theorem escapeHtml_injective a b :
  escapeHtml a = escapeHtml b -> a = b.
Proof.
  revert b. induction a as [|c a IH]; intros [|d b] H.
  - reflexivity.
  - rewrite escapeHtml_cons in H. exfalso.
    destruct (escape_char_cases d)
      as [[-> Ed]|[[-> Ed]|[[-> Ed]|[[-> Ed]|[[-> Ed]|[Hd Ed]]]]]];
      rewrite Ed in H; discriminate H.
  - rewrite escapeHtml_cons in H. exfalso.
    destruct (escape_char_cases c)
      as [[-> Ec]|[[-> Ec]|[[-> Ec]|[[-> Ec]|[[-> Ec]|[Hc Ec]]]]]];
      rewrite Ec in H; discriminate H.
  - rewrite !escapeHtml_cons in H.
    apply escape_char_append_inj in H as [-> H]. f_equal. now apply IH.
Qed.

Lemma escapeHtml_injective_witness :
  escapeHtml "a<b" = escapeHtml "a<b" /\ "a<b" = "a<b".
Proof.
  split; [reflexivity|].
  apply (escapeHtml_injective "a<b" "a<b"). reflexivity.
Defined.

(** *** Registration *)

Lemma is_empty_true_iff s : Str.is_empty s = true <-> s = "".
Proof. destruct s; split; intros H; try reflexivity; discriminate H. Qed.

Lemma is_empty_false_iff s : Str.is_empty s = false <-> s <> "".
Proof. destruct s; split; intros H; try discriminate; try reflexivity. now destruct H. Qed.

Lemma non_empty_Some h s : non_empty h = Some s <-> h = Some s /\ s <> "".
Proof.
  unfold non_empty. destruct h as [x|].
  - destruct (Str.is_empty x) eqn:E.
    + apply is_empty_true_iff in E as ->. split; [discriminate|].
      intros [[= <-] H]. now destruct H.
    + apply is_empty_false_iff in E. split.
      * intros [= <-]. now split.
      * now intros [[= <-] _].
  - split; [discriminate|]. now intros [? _].
Qed.

Lemma run_registration body userId apiToken now s email name :
  non_empty (Register.email body) = Some email ->
  non_empty (Register.name body) = Some name ->
  Register.truthy (Register.USERS s !! ("email:" +:+ email)) = false ->
  Register.handleRegisterUser body userId apiToken now s =
  (Register.Registered "User registered successfully" userId apiToken 201,
   {| Register.USERS :=
        <["email:" +:+ email := Register.UserId userId]>
          (<[userId := Register.UserJson
                         {| User.id := userId; User.email := email;
                            User.name := name; User.created_at := now;
                            User.packages := [] |}]> (Register.USERS s));
      Register.TOKENS := <[apiToken := userId]> (Register.TOKENS s) |}).
Proof.
  intros He Hn Ht. unfold Register.handleRegisterUser.
  now rewrite He, Hn, Ht.
Qed.

Lemma user_records_lookup s key :
  Register.user_records s !! key =
  match Register.USERS s !! key with
  | Some (Register.UserJson u) => Some u
  | _ => None
  end.
Proof.
  unfold Register.user_records. rewrite lookup_omap.
  destruct (Register.USERS s !! key) as [[u|uid]|]; reflexivity.
Qed.

Lemma fst_run_verifyToken_accounts token w s :
  fst (run (verifyToken token) (with_env w (with_accounts s (env w)))) =
  if Str.is_empty token then None
  else if match ADMIN_TOKEN (env w) with
          | Some a => negb (Str.is_empty a) && String.eqb token a
          | None => false
          end
  then Some {| User.id := "admin"; User.email := "admin@roast-lang.org";
               User.name := "Admin"; User.created_at := clock w (ticks w);
               User.packages := [] |}
  else match Register.TOKENS s !! token with
       | Some userId =>
           if Str.is_empty userId then None
           else Register.user_records s !! userId
       | None => None
       end.
Proof. rewrite fst_run_verifyToken. reflexivity. Qed.



(** An email is registered once: after an accepted registration whose user
    id is not empty, a second registration with the same email and some
    name is answered 409 and leaves the users and the tokens as they
    are, whatever identifiers it would have drawn. *)
Theorem register_twice_conflict body userId apiToken now s email name
    body2 userId2 apiToken2 now2 name2 :
  non_empty (Register.email body) = Some email ->
  non_empty (Register.name body) = Some name ->
  Register.truthy (Register.USERS s !! ("email:" +:+ email)) = false ->
  userId <> "" ->
  non_empty (Register.email body2) = Some email ->
  non_empty (Register.name body2) = Some name2 ->
  let s1 := snd (Register.handleRegisterUser body userId apiToken now s) in
  Register.handleRegisterUser body2 userId2 apiToken2 now2 s1 =
    (Register.Error "Email already registered" 409, s1).
Proof.
  intros He Hn Ht Hu He2 Hn2.
  rewrite (run_registration _ _ _ _ _ _ _ He Hn Ht). cbn [snd].
  unfold Register.handleRegisterUser. rewrite He2, Hn2.
  cbn [Register.USERS]. rewrite lookup_insert_eq. cbn [Register.truthy].
  apply is_empty_false_iff in Hu. now rewrite Hu.
Qed.

Lemma register_twice_conflict_witness :
  let s1 := snd (Register.handleRegisterUser
                   {| Register.email := Some "carol@example.org";
                      Register.name := Some "Carol" |}
                   "user-carol" "tok-carol" "2024-03-01T00:00:00.000Z"
                   {| Register.USERS := ∅; Register.TOKENS := ∅ |}) in
  Register.handleRegisterUser
    {| Register.email := Some "carol@example.org";
       Register.name := Some "Eve" |}
    "user-eve" "tok-eve" "2024-03-02T00:00:00.000Z" s1 =
  (Register.Error "Email already registered" 409, s1).
Proof.
  apply (register_twice_conflict
           {| Register.email := Some "carol@example.org";
              Register.name := Some "Carol" |}
           "user-carol" "tok-carol" "2024-03-01T00:00:00.000Z"
           {| Register.USERS := ∅; Register.TOKENS := ∅ |}
           "carol@example.org" "Carol"
           {| Register.email := Some "carol@example.org";
              Register.name := Some "Eve" |}
           "user-eve" "tok-eve" "2024-03-02T00:00:00.000Z" "Eve");
    first [reflexivity|discriminate].
Defined.

Lemma register_error_unchanged body userId apiToken now s message status0 s1 :
  Register.handleRegisterUser body userId apiToken now s =
    (Register.Error message status0, s1) -> s1 = s.
Proof.
  unfold Register.handleRegisterUser.
  destruct (non_empty (Register.email body)) as [e|];
    [destruct (non_empty (Register.name body)) as [n|]|];
    [destruct (Register.truthy _)|..]; intros [=]; congruence.
Qed.

(** A registration does not disturb the accounts that exist: a token other
    than the new one, which is not bound to the new user id, is verified
    after the registration exactly as before, whether the registration is
    accepted or refused. *)
Theorem register_keeps_accounts body userId apiToken now s w token :
  token <> apiToken ->
  Register.TOKENS s !! token <> Some userId ->
  let s1 := snd (Register.handleRegisterUser body userId apiToken now s) in
  fst (run (verifyToken token) (with_env w (with_accounts s1 (env w)))) =
  fst (run (verifyToken token) (with_env w (with_accounts s (env w)))).
Proof.
  intros Ht Hu.
  destruct (Register.handleRegisterUser body userId apiToken now s)
    as [[message status0|message uid tok status0] s1] eqn:E.
  - apply register_error_unchanged in E as ->. reflexivity.
  - cbn [snd]. unfold Register.handleRegisterUser in E.
    destruct (non_empty (Register.email body)) as [e|]; [|discriminate E].
    destruct (non_empty (Register.name body)) as [n|]; [|discriminate E].
    destruct (Register.truthy (Register.USERS s !! ("email:" +:+ e))) eqn:Tr;
      [discriminate E|].
    injection E as _ _ _ _ <-.
    rewrite !fst_run_verifyToken_accounts.
    destruct (Str.is_empty token); [reflexivity|].
    destruct (match ADMIN_TOKEN (env w) with
              | Some a => negb (Str.is_empty a) && String.eqb token a
              | None => false end); [reflexivity|].
    cbn [Register.TOKENS]. rewrite lookup_insert_ne by congruence.
    destruct (Register.TOKENS s !! token) as [u|] eqn:Eu; [|reflexivity].
    destruct (Str.is_empty u); [reflexivity|].
    rewrite !user_records_lookup. cbn [Register.USERS].
    assert (u <> userId) by congruence.
    destruct (decide (u = "email:" +:+ e)) as [->|Hne].
    + rewrite lookup_insert_eq.
      destruct (Register.USERS s !! ("email:" +:+ e)) as [[x|x]|];
        first [reflexivity|discriminate Tr].
    + now rewrite !lookup_insert_ne by congruence.
Qed.

Lemma register_keeps_accounts_witness :
  let s := {| Register.USERS :=
                {[ "user-alice" := Register.UserJson Demo.alice ]};
              Register.TOKENS := {[ "tok-alice" := "user-alice" ]} |} in
  let s1 := snd (Register.handleRegisterUser
                   {| Register.email := Some "carol@example.org";
                      Register.name := Some "Carol" |}
                   "user-carol" "tok-carol" "2024-03-01T00:00:00.000Z" s) in
  fst (run (verifyToken "tok-alice")
         (with_env Demo.world (with_accounts s1 (env Demo.world)))) =
  fst (run (verifyToken "tok-alice")
         (with_env Demo.world (with_accounts s (env Demo.world)))).
Proof.
  apply (register_keeps_accounts
           {| Register.email := Some "carol@example.org";
              Register.name := Some "Carol" |}
           "user-carol" "tok-carol" "2024-03-01T00:00:00.000Z"
           {| Register.USERS :=
                {[ "user-alice" := Register.UserJson Demo.alice ]};
              Register.TOKENS := {[ "tok-alice" := "user-alice" ]} |}
           Demo.world "tok-alice").
  - discriminate.
  - vm_compute. discriminate.
Defined.
